(** * Device fingerprint: WebGL triangle, pixel readback, SHA-256, hex string

  A shallow embedding of [src/fingerprint.ts] and [src/fp.js].  The program
  is one linear procedure that talks to the browser: it creates a canvas,
  drives a WebGL context, reads the pixels back, hands them to
  [crypto.subtle.digest] and formats the digest as lowercase hex.

  The browser is modelled as a host: a state type together with a handler
  that answers every call the program makes.  The program is written in a
  small state/trace/error monad over that host, one monadic call per
  host call of the source, in the source's evaluation order. *)

From Stdlib Require Import ZArith NArith List String Ascii Bool Lia.
From Stdlib.Strings Require Import Byte.
From stdpp Require Import gmap strings.
Import ListNotations.

Local Open Scope string_scope.
Local Open Scope list_scope.

(** ** JavaScript string and number helpers used by the hex formatting *)

Module JsString.

(** Digits of [Number.prototype.toString(radix)]: 0-9 then a-z. *)
Definition digits : list ascii :=
  list_ascii_of_string "0123456789abcdefghijklmnopqrstuvwxyz".

Definition digit (d : N) : ascii := nth (N.to_nat d) digits "0"%char.

(** Most significant digit first; [fuel] bounds the number of digits. *)
Fixpoint toString_digits (fuel : nat) (radix n : N) (acc : list ascii)
  : list ascii :=
  match fuel with
  | O => digit (n mod radix) :: acc
  | S fuel' =>
      if (n <? radix)%N then digit n :: acc
      else toString_digits fuel' radix (n / radix)%N
                           (digit (n mod radix) :: acc)
  end.

(** [n.toString(radix)] for a non-negative integer [n] and radix 2..36. *)
Definition toString (radix n : N) : string :=
  string_of_list_ascii (toString_digits (N.to_nat (N.log2 n)) radix n []).

(** [pad] repeated and cut to exactly [k] characters. *)
Fixpoint fill_string (fuel k : nat) (pad : list ascii) : list ascii :=
  match fuel with
  | O => []
  | S fuel' =>
      if (k <=? List.length pad)%nat then firstn k pad
      else pad ++ fill_string fuel' (k - List.length pad) pad
  end.

(** [s.padStart(targetLength, padString)]. *)
Definition padStart (s : string) (targetLength : nat) (padString : string)
  : string :=
  let len := String.length s in
  if (targetLength <=? len)%nat then s
  else if (String.length padString =? 0)%nat then s
  else string_of_list_ascii
         (fill_string (targetLength - len) (targetLength - len)
                      (list_ascii_of_string padString))
       +:+ s.

(** [arr.join(sep)]. *)
Fixpoint join (sep : string) (l : list string) : string :=
  match l with
  | [] => ""
  | [x] => x
  | x :: rest => x +:+ sep +:+ join sep rest
  end.

(** String concatenation with a possibly-null operand: ["a" + null]. *)
Definition of_nullable (s : option string) : string :=
  match s with
  | Some v => v
  | None => "null"
  end.

End JsString.

(** ** Byte buffers *)

Abbreviation byte := Byte.byte.

Definition byte_of_Z (z : Z) : byte :=
match Byte.of_N (Z.to_N (z mod 256)) with
| Some b => b
| None => Byte.x00
end.

Definition Z_of_byte (b : byte) : Z := Z.of_N (Byte.to_N b).

(** [new Uint8Array(n)]: [n] zero bytes.  The length the source passes is
    [canvas.width * canvas.height * 4]; the two dimensions are unsigned
    integers and the product is taken exactly. *)
Definition Uint8Array_new (n : N) : list byte := repeat Byte.x00 (N.to_nat n).

(** A typed array has a fixed length: when the host writes [data] into
  [buf], bytes past the end of [buf] are dropped and positions that
  [data] does not reach keep their old content. *)
Definition typed_array_write (buf data : list byte) : list byte :=
firstn (List.length buf) data ++ skipn (List.length data) buf.

(** ** SHA-256 (FIPS 180-4)

  The digest function that [crypto.subtle.digest("SHA-256", _)] is
  specified to compute.  The program never computes it itself; it is the
  reference against which a host's crypto is called conforming. *)

Module SHA256.
Local Open Scope Z_scope.

Definition w32 (x : Z) : Z := x mod 4294967296.
Definition add32 (x y : Z) : Z := w32 (x + y).
Definition rotr (n x : Z) : Z :=
  Z.lor (Z.shiftr x n) (w32 (Z.shiftl x (32 - n))).
Definition shr (n x : Z) : Z := Z.shiftr x n.
Definition not32 (x : Z) : Z := Z.lxor x 4294967295.

Definition Ch (x y z : Z) : Z :=
  Z.lxor (Z.land x y) (Z.land (not32 x) z).
Definition Maj (x y z : Z) : Z :=
  Z.lxor (Z.lxor (Z.land x y) (Z.land x z)) (Z.land y z).
Definition bsig0 (x : Z) : Z :=
  Z.lxor (Z.lxor (rotr 2 x) (rotr 13 x)) (rotr 22 x).
Definition bsig1 (x : Z) : Z :=
  Z.lxor (Z.lxor (rotr 6 x) (rotr 11 x)) (rotr 25 x).
Definition ssig0 (x : Z) : Z :=
  Z.lxor (Z.lxor (rotr 7 x) (rotr 18 x)) (shr 3 x).
Definition ssig1 (x : Z) : Z :=
  Z.lxor (Z.lxor (rotr 17 x) (rotr 19 x)) (shr 10 x).

(** The constants are defined the way the standard introduces them: the
    first 32 bits of the fractional parts of the cube roots (round
    constants) and square roots (initial hash value) of the first primes. *)
Definition is_prime (n : nat) : bool :=
  (2 <=? n)%nat
  && forallb (fun d => negb (n mod d =? 0)%nat) (seq 2 (n - 2)).

Definition primes : list Z :=
  map Z.of_nat (List.filter is_prime (seq 2 310)).

(** Integer [k]-th root of a number below [2^(40*k)], bit by bit. *)
Definition iroot (k : Z) (n : Z) : Z :=
  fold_left (fun r b => let r' := r + 2 ^ b in
                        if r' ^ k <=? n then r' else r)
            (map Z.of_nat (rev (seq 0 40))) 0.

Definition frac_root (k : Z) (p : Z) : Z :=
  w32 (iroot k (p * 2 ^ (32 * k))).

Definition K : list Z := Eval vm_compute in map (frac_root 3) primes.

(** The eight working registers / the chaining value. *)
Record regs := Regs { ra : Z; rb : Z; rc : Z; rd : Z;
                      re : Z; rf : Z; rg : Z; rh : Z }.

Definition regs_of_list (l : list Z) : regs :=
  Regs (nth 0 l 0) (nth 1 l 0) (nth 2 l 0) (nth 3 l 0)
       (nth 4 l 0) (nth 5 l 0) (nth 6 l 0) (nth 7 l 0).

Definition H0 : regs :=
  Eval vm_compute in regs_of_list (map (frac_root 2) (firstn 8 primes)).

(** Padding: 0x80, zeros up to 56 mod 64, then the bit length on 64 bits. *)
Definition be_bytes (n : nat) (x : Z) : list Z :=
  map (fun i => Z.land (Z.shiftr x (8 * Z.of_nat i)) 255) (rev (seq 0 n)).

Definition pad (msg : list Z) : list Z :=
  let len := Z.of_nat (List.length msg) in
  let zeros := Z.to_nat ((55 - len) mod 64) in
  msg ++ [128] ++ repeat 0 zeros ++ be_bytes 8 (8 * len).

Definition word_of (b0 b1 b2 b3 : Z) : Z :=
  Z.lor (Z.lor (Z.shiftl b0 24) (Z.shiftl b1 16))
        (Z.lor (Z.shiftl b2 8) b3).

Fixpoint words (bs : list Z) : list Z :=
  match bs with
  | b0 :: b1 :: b2 :: b3 :: rest => word_of b0 b1 b2 b3 :: words rest
  | _ => []
  end.

Fixpoint chunks (fuel : nat) (ws : list Z) : list (list Z) :=
  match fuel with
  | O => []
  | S fuel' =>
      match ws with
      | [] => []
      | _ => firstn 16 ws :: chunks fuel' (skipn 16 ws)
      end
  end.

(** Message schedule, kept newest-first: [W t] is the head. *)
Fixpoint extend (n : nat) (rw : list Z) : list Z :=
  match n with
  | O => rw
  | S n' =>
      let w := add32 (add32 (ssig1 (nth 1 rw 0)) (nth 6 rw 0))
                     (add32 (ssig0 (nth 14 rw 0)) (nth 15 rw 0)) in
      extend n' (w :: rw)
  end.

Definition schedule (block : list Z) : list Z :=
  rev (extend 48 (rev block)).

Definition round (r : regs) (kw : Z * Z) : regs :=
  let '(k, w) := kw in
  let t1 := add32 (add32 (add32 (rh r) (bsig1 (re r)))
                         (add32 (Ch (re r) (rf r) (rg r)) k)) w in
  let t2 := add32 (bsig0 (ra r)) (Maj (ra r) (rb r) (rc r)) in
  Regs (add32 t1 t2) (ra r) (rb r) (rc r)
       (add32 (rd r) t1) (re r) (rf r) (rg r).

Definition compress (h : regs) (block : list Z) : regs :=
  let r := fold_left round (combine K (schedule block)) h in
  Regs (add32 (ra h) (ra r)) (add32 (rb h) (rb r))
       (add32 (rc h) (rc r)) (add32 (rd h) (rd r))
       (add32 (re h) (re r)) (add32 (rf h) (rf r))
       (add32 (rg h) (rg r)) (add32 (rh h) (rh r)).

Definition word_bytes (x : Z) : list byte :=
  [ byte_of_Z (Z.shiftr x 24); byte_of_Z (Z.shiftr x 16);
    byte_of_Z (Z.shiftr x 8); byte_of_Z x ].

Definition digest_bytes (r : regs) : list byte :=
  word_bytes (ra r) ++ word_bytes (rb r) ++ word_bytes (rc r)
  ++ word_bytes (rd r) ++ word_bytes (re r) ++ word_bytes (rf r)
  ++ word_bytes (rg r) ++ word_bytes (rh r).

Definition sha256 (msg : list byte) : list byte :=
  let ws := words (pad (map Z_of_byte msg)) in
  digest_bytes (fold_left compress (chunks (List.length ws) ws) H0).

End SHA256.

(** Hex encoding of a byte sequence exactly as the source writes it:
  [Array.from(bytes).map(b => b.toString(16).padStart(2, "0")).join("")]. *)
Definition hex_of_byte (b : byte) : string :=
JsString.padStart (JsString.toString 16 (Byte.to_N b)) 2 "0".

Definition hex_of_bytes (bs : list byte) : string :=
JsString.join "" (map hex_of_byte bs).

Definition bytes_of_string (s : string) : list byte :=
map byte_of_ascii (list_ascii_of_string s).


(** ** The host interface

    Handles of host objects.  A value the source may hold as [null] is an
    [option]. *)

Definition WebGLRenderingContext := N.
Definition WebGLShader := N.
Definition WebGLProgram := N.
Definition WebGLBuffer := N.
Definition WebGLUniformLocation := N.
Definition HTMLElement := N.

(** The canvas object the program holds in its local [canvas]: the
    drawing-buffer dimensions [canvas.width], [canvas.height] and the
    inline style [canvas.style].  The program reads the first two and
    assigns properties of the third. *)
Record HTMLCanvasElement := mkCanvas {
  canvas_id : N;
  width : N;
  height : N;
  style : gmap string string;
}.

(** [canvas.style.prop = value]. *)
Definition set_style (canvas : HTMLCanvasElement) (prop value : string)
  : HTMLCanvasElement :=
  {| canvas_id := canvas_id canvas;
     width := width canvas;
     height := height canvas;
     style := <[prop := value]> (style canvas) |}.

(** The [gl.*] constants the source names. *)
Inductive GLenum :=
| VERTEX_SHADER | FRAGMENT_SHADER | COMPILE_STATUS | LINK_STATUS
| ARRAY_BUFFER | STATIC_DRAW | FLOAT | COLOR_BUFFER_BIT | TRIANGLES
| RGBA | UNSIGNED_BYTE.

(** Every float literal of the source (vertex coordinates, colours) is an
    integer value; they are carried as integers. *)
Abbreviation GLfloat := Z.

(** One constructor per host call of the two sources, indexed by the type
    of what the host answers. *)
Inductive Call : Type -> Type :=
| CreateElement (tagName : string) : Call HTMLCanvasElement
| GetContext (canvas : HTMLCanvasElement) (contextId : string)
  : Call (option WebGLRenderingContext)
| CreateShader (gl : WebGLRenderingContext) (type : GLenum)
  : Call (option WebGLShader)
| ShaderSource (gl : WebGLRenderingContext) (shader : WebGLShader)
    (source : string) : Call unit
| CompileShader (gl : WebGLRenderingContext) (shader : WebGLShader)
  : Call unit
| GetShaderParameter (gl : WebGLRenderingContext) (shader : WebGLShader)
    (pname : GLenum) : Call bool
| GetShaderInfoLog (gl : WebGLRenderingContext) (shader : WebGLShader)
  : Call (option string)
| DeleteShader (gl : WebGLRenderingContext) (shader : WebGLShader)
  : Call unit
| CreateProgram (gl : WebGLRenderingContext) : Call (option WebGLProgram)
| AttachShader (gl : WebGLRenderingContext) (program : option WebGLProgram)
    (shader : WebGLShader) : Call unit
| LinkProgram (gl : WebGLRenderingContext) (program : option WebGLProgram)
  : Call unit
| GetProgramParameter (gl : WebGLRenderingContext)
    (program : option WebGLProgram) (pname : GLenum) : Call bool
| GetProgramInfoLog (gl : WebGLRenderingContext)
    (program : option WebGLProgram) : Call (option string)
| UseProgram (gl : WebGLRenderingContext) (program : WebGLProgram)
  : Call unit
| CreateBuffer (gl : WebGLRenderingContext) : Call (option WebGLBuffer)
| BindBuffer (gl : WebGLRenderingContext) (target : GLenum)
    (buffer : option WebGLBuffer) : Call unit
| BufferData (gl : WebGLRenderingContext) (target : GLenum)
    (data : list GLfloat) (usage : GLenum) : Call unit
| GetAttribLocation (gl : WebGLRenderingContext) (program : WebGLProgram)
    (name : string) : Call Z
| EnableVertexAttribArray (gl : WebGLRenderingContext) (index : Z)
  : Call unit
| VertexAttribPointer (gl : WebGLRenderingContext) (index : Z) (size : Z)
    (type : GLenum) (normalized : bool) (stride offset : Z) : Call unit
| GetUniformLocation (gl : WebGLRenderingContext) (program : WebGLProgram)
    (name : string) : Call (option WebGLUniformLocation)
| Uniform4f (gl : WebGLRenderingContext)
    (location : option WebGLUniformLocation) (x y z w : GLfloat) : Call unit
| ClearColor (gl : WebGLRenderingContext) (r g b a : GLfloat) : Call unit
| Clear (gl : WebGLRenderingContext) (mask : GLenum) : Call unit
| DrawArrays (gl : WebGLRenderingContext) (mode : GLenum) (first count : Z)
  : Call unit
| ReadPixels (gl : WebGLRenderingContext) (x y : Z) (w h : N)
    (format type : GLenum) (pixels : list byte) : Call (list byte)
| Digest (algorithm : string) (data : list byte) : Call (list byte)
| ConsoleError (message : string) : Call unit
| ConsoleLog (args : list string) : Call unit
| GetElementById (elementId : string) : Call (option HTMLElement)
| SetTextContent (element : HTMLElement) (text : string) : Call unit.

(** A host answers a call in its current state and moves to a new one. *)
Definition Host (state : Type) : Type :=
  forall X : Type, Call X -> state -> X * state.

(** One entry of the trace: the call and what the host answered. *)
Inductive Event : Type :=
| Ev {X : Type} (c : Call X) (r : X).

Inductive JsError :=
| Error (message : string)
| TypeError.

(** How a run ends: a resolved value or a thrown error / rejected promise. *)
Inductive Completion (A : Type) :=
| Returned (a : A)
| Thrown (e : JsError).
Arguments Returned {A} a.
Arguments Thrown {A} e.

(** ** The monad: host state, trace of host calls, errors *)

Section Monad.
Context {state : Type}.

Definition M (A : Type) : Type :=
  state -> state * list Event * Completion A.

Definition ret {A} (a : A) : M A := fun st => (st, [], Returned a).

Definition throw {A} (e : JsError) : M A := fun st => (st, [], Thrown e).

Definition bind {A B} (m : M A) (k : A -> M B) : M B :=
  fun st =>
    match m st with
    | (st1, t1, Returned a) =>
        match k a st1 with
        | (st2, t2, r) => (st2, t1 ++ t2, r)
        end
    | (st1, t1, Thrown e) => (st1, t1, Thrown e)
    end.

Definition call (host : Host state) {X} (c : Call X) : M X :=
  fun st =>
    match host X c st with
    | (r, st1) => (st1, [Ev c r], Returned r)
    end.

End Monad.

Notation "x <- c1 ;; c2" := (bind c1 (fun x => c2))
  (at level 100, c1 at next level, right associativity).
Notation "c1 ;; c2" := (bind c1 (fun _ => c2))
  (at level 100, right associativity).

Definition trace_of {state A} (out : state * list Event * Completion A)
  : list Event := snd (fst out).
Definition result_of {state A} (out : state * list Event * Completion A)
  : Completion A := snd out.
Definition state_of {state A} (out : state * list Event * Completion A)
  : state := fst (fst out).

(** ** src/fingerprint.ts *)

Module TS.

Definition vertexShaderSource : string := "
  attribute vec2 aVertexPosition;
  void main() {
    gl_Position = vec4(aVertexPosition, 0, 1);
  }
".

Definition fragmentShaderSource : string := "
  precision mediump float;
  uniform vec4 uColor;
  void main() {
    gl_FragColor = uColor;
  }
".

Section WithHost.
Context {state : Type} (host : Host state).

(** Function to create and compile a shader. *)
Definition createShader (gl : WebGLRenderingContext) (type : GLenum)
    (source : string) : M (option WebGLShader) :=
  shader <- call host (CreateShader gl type);;
  match shader with
  | None =>
      call host (ConsoleError "Error creating shader.");;
      ret None
  | Some sh =>
      call host (ShaderSource gl sh source);;
      call host (CompileShader gl sh);;
      status <- call host (GetShaderParameter gl sh COMPILE_STATUS);;
      if negb status then
        log <- call host (GetShaderInfoLog gl sh);;
        call host (ConsoleError
          ("An error occurred compiling the shaders: "
           +:+ JsString.of_nullable log));;
        call host (DeleteShader gl sh);;
        ret None
      else ret (Some sh)
  end.

(** Function to create a program from vertex and fragment shaders. *)
Definition createShaderProgram (gl : WebGLRenderingContext)
    (vertexSource fragmentSource : string) : M (option WebGLProgram) :=
  vertexShader <- createShader gl VERTEX_SHADER vertexSource;;
  fragmentShader <- createShader gl FRAGMENT_SHADER fragmentSource;;
  match vertexShader, fragmentShader with
  | Some vs, Some fs =>
      program <- call host (CreateProgram gl);;
      call host (AttachShader gl program vs);;
      call host (AttachShader gl program fs);;
      call host (LinkProgram gl program);;
      status <- call host (GetProgramParameter gl program LINK_STATUS);;
      if negb status then
        log <- call host (GetProgramInfoLog gl program);;
        call host (ConsoleError
          ("Unable to initialize the shader program: "
           +:+ JsString.of_nullable log));;
        ret None
      else ret program
  | _, _ => ret None
  end.

(** Main function to create the fingerprint. *)
Definition createDeviceFingerprint : M string :=
  canvas <- call host (CreateElement "canvas");;
  gl <- call host (GetContext canvas "webgl");;
  match gl with
  | None => throw (Error "WebGL is not supported")
  | Some gl =>
      let canvas := set_style canvas "position" "absolute" in
      let canvas := set_style canvas "top" "-9999px" in
      let canvas := set_style canvas "width" "1px" in
      let canvas := set_style canvas "height" "1px" in
      shaderProgram <-
        createShaderProgram gl vertexShaderSource fragmentShaderSource;;
      match shaderProgram with
      | None => throw (Error "Shader program could not be initialized")
      | Some shaderProgram =>
          call host (UseProgram gl shaderProgram);;
          let vertices : list GLfloat := [0; 1; -1; -1; 1; -1]%Z in
          vertexBuffer <- call host (CreateBuffer gl);;
          call host (BindBuffer gl ARRAY_BUFFER vertexBuffer);;
          call host (BufferData gl ARRAY_BUFFER vertices STATIC_DRAW);;
          positionAttribLocation <-
            call host (GetAttribLocation gl shaderProgram "aVertexPosition");;
          call host (EnableVertexAttribArray gl positionAttribLocation);;
          call host (VertexAttribPointer gl positionAttribLocation 2 FLOAT
                                         false 0 0);;
          colorUniformLocation <-
            call host (GetUniformLocation gl shaderProgram "uColor");;
          call host (Uniform4f gl colorUniformLocation 1 1 0 1);;
          call host (ClearColor gl 0 0 0 1);;
          call host (Clear gl COLOR_BUFFER_BIT);;
          call host (DrawArrays gl TRIANGLES 0 3);;
          let pixels :=
            Uint8Array_new (width canvas * height canvas * 4) in
          data <- call host (ReadPixels gl 0 0 (width canvas) (height canvas)
                                        RGBA UNSIGNED_BYTE pixels);;
          let pixels := typed_array_write pixels data in
          hashBuffer <- call host (Digest "SHA-256" pixels);;
          let hashArray : list N := map Byte.to_N hashBuffer in
          let hashHex : string :=
            JsString.join ""
              (map (fun b => JsString.padStart (JsString.toString 16 b) 2 "0")
                   hashArray) in
          ret hashHex
      end
  end.

(** Example usage: the fingerprint goes to the console. *)
Definition main : M unit :=
  fingerprint <- createDeviceFingerprint;;
  call host (ConsoleLog ["Device fingerprint:"; fingerprint]).

End WithHost.
End TS.

(** ** src/fp.js *)

Module JS.

Definition vertexShaderSource : string := "
  attribute vec2 aVertexPosition;
  void main() {
    gl_Position = vec4(aVertexPosition, 0, 1);
  }
".

Definition fragmentShaderSource : string := "
  precision mediump float;
  uniform vec4 uColor;
  void main() {
    gl_FragColor = uColor;
  }
".

Section WithHost.
Context {state : Type} (host : Host state).

Definition createShader (gl : WebGLRenderingContext) (type : GLenum)
    (source : string) : M (option WebGLShader) :=
  shader <- call host (CreateShader gl type);;
  match shader with
  | None =>
      call host (ConsoleError "Error creating shader.");;
      ret None
  | Some sh =>
      call host (ShaderSource gl sh source);;
      call host (CompileShader gl sh);;
      status <- call host (GetShaderParameter gl sh COMPILE_STATUS);;
      if negb status then
        log <- call host (GetShaderInfoLog gl sh);;
        call host (ConsoleError
          ("An error occurred compiling the shaders: "
           +:+ JsString.of_nullable log));;
        call host (DeleteShader gl sh);;
        ret None
      else ret (Some sh)
  end.

Definition createShaderProgram (gl : WebGLRenderingContext)
    (vertexSource fragmentSource : string) : M (option WebGLProgram) :=
  vertexShader <- createShader gl VERTEX_SHADER vertexSource;;
  fragmentShader <- createShader gl FRAGMENT_SHADER fragmentSource;;
  match vertexShader, fragmentShader with
  | Some vs, Some fs =>
      program <- call host (CreateProgram gl);;
      call host (AttachShader gl program vs);;
      call host (AttachShader gl program fs);;
      call host (LinkProgram gl program);;
      status <- call host (GetProgramParameter gl program LINK_STATUS);;
      if negb status then
        log <- call host (GetProgramInfoLog gl program);;
        call host (ConsoleError
          ("Unable to initialize the shader program: "
           +:+ JsString.of_nullable log));;
        ret None
      else ret program
  | _, _ => ret None
  end.

Definition createDeviceFingerprint : M string :=
  canvas <- call host (CreateElement "canvas");;
  gl <- call host (GetContext canvas "webgl");;
  match gl with
  | None => throw (Error "WebGL is not supported")
  | Some gl =>
      let canvas := set_style canvas "position" "absolute" in
      let canvas := set_style canvas "top" "-9999px" in
      let canvas := set_style canvas "width" "1px" in
      let canvas := set_style canvas "height" "1px" in
      shaderProgram <-
        createShaderProgram gl vertexShaderSource fragmentShaderSource;;
      match shaderProgram with
      | None => throw (Error "Shader program could not be initialized")
      | Some shaderProgram =>
          call host (UseProgram gl shaderProgram);;
          let vertices : list GLfloat := [0; 1; -1; -1; 1; -1]%Z in
          vertexBuffer <- call host (CreateBuffer gl);;
          call host (BindBuffer gl ARRAY_BUFFER vertexBuffer);;
          call host (BufferData gl ARRAY_BUFFER vertices STATIC_DRAW);;
          positionAttribLocation <-
            call host (GetAttribLocation gl shaderProgram "aVertexPosition");;
          call host (EnableVertexAttribArray gl positionAttribLocation);;
          call host (VertexAttribPointer gl positionAttribLocation 2 FLOAT
                                         false 0 0);;
          colorUniformLocation <-
            call host (GetUniformLocation gl shaderProgram "uColor");;
          call host (Uniform4f gl colorUniformLocation 1 1 0 1);;
          call host (ClearColor gl 0 0 0 1);;
          call host (Clear gl COLOR_BUFFER_BIT);;
          call host (DrawArrays gl TRIANGLES 0 3);;
          let pixels :=
            Uint8Array_new (width canvas * height canvas * 4) in
          data <- call host (ReadPixels gl 0 0 (width canvas) (height canvas)
                                        RGBA UNSIGNED_BYTE pixels);;
          let pixels := typed_array_write pixels data in
          hashBuffer <- call host (Digest "SHA-256" pixels);;
          let hashArray : list N := map Byte.to_N hashBuffer in
          let hashHex : string :=
            JsString.join ""
              (map (fun b => JsString.padStart (JsString.toString 16 b) 2 "0")
                   hashArray) in
          ret hashHex
      end
  end.

(** The fingerprint goes to the page element with id [fingerprint];
    assigning [textContent] on a missing element is a [TypeError]. *)
Definition main : M unit :=
  fingerprint <- createDeviceFingerprint;;
  fingerprintEl <- call host (GetElementById "fingerprint");;
  match fingerprintEl with
  | None => throw TypeError
  | Some el => call host (SetTextContent el fingerprint)
  end.

End WithHost.
End JS.

(** ** Reading traces *)

(** The call of an event, forgetting its answer. *)
Definition on_call (p : forall X, Call X -> bool) (e : Event) : bool :=
  match e with
  | Ev c _ => p _ c
  end.

Definition is_drawArrays {X} (c : Call X) : bool :=
  match c with DrawArrays _ _ _ _ => true | _ => false end.
Definition is_readPixels {X} (c : Call X) : bool :=
  match c with ReadPixels _ _ _ _ _ _ _ _ => true | _ => false end.
Definition is_digest {X} (c : Call X) : bool :=
  match c with Digest _ _ => true | _ => false end.
Definition is_consoleError {X} (c : Call X) : bool :=
  match c with ConsoleError _ => true | _ => false end.

(** Number of events of the trace whose call satisfies [p]. *)
Definition count_calls (p : forall X, Call X -> bool) (t : list Event) : nat :=
  List.length (List.filter (on_call p) t).

(** A shader stage failed: the shader object could not be created, or its
    compile status is false. *)
Definition stage_failed (e : Event) : bool :=
  match e with
  | Ev c r =>
      match c in Call X return X -> bool with
      | CreateShader _ _ => fun r => match r with None => true | _ => false end
      | GetShaderParameter _ _ COMPILE_STATUS => fun r => negb r
      | _ => fun _ => false
      end r
  end.

(** The link status of the program is false. *)
Definition link_failed (e : Event) : bool :=
  match e with
  | Ev c r =>
      match c in Call X return X -> bool with
      | GetProgramParameter _ _ LINK_STATUS => fun r => negb r
      | _ => fun _ => false
      end r
  end.

(** The host answered [null] to one of the three calls whose result the
    source uses unchecked. *)
Definition unchecked_null (e : Event) : bool :=
  match e with
  | Ev c r =>
      match c in Call X return X -> bool with
      | CreateProgram _ => fun r => match r with None => true | _ => false end
      | CreateBuffer _ => fun r => match r with None => true | _ => false end
      | GetUniformLocation _ _ _ =>
          fun r => match r with None => true | _ => false end
      | _ => fun _ => false
      end r
  end.

(** A [null] handle is handed to a host call. *)
Definition passes_null {X} (c : Call X) : bool :=
  match c with
  | AttachShader _ None _ => true
  | LinkProgram _ None => true
  | GetProgramParameter _ None _ => true
  | GetProgramInfoLog _ None => true
  | BindBuffer _ _ None => true
  | Uniform4f _ None _ _ _ _ => true
  | _ => false
  end.

(** The bytes in the pixel buffer once [readPixels] has returned. *)
Definition readback_of_event (e : Event) : option (list byte) :=
  match e with
  | Ev c r =>
      match c in Call X return X -> option (list byte) with
      | ReadPixels _ _ _ _ _ _ _ pixels =>
          fun data => Some (typed_array_write pixels data)
      | _ => fun _ => None
      end r
  end.

Fixpoint readback (t : list Event) : option (list byte) :=
  match t with
  | [] => None
  | e :: t' =>
      match readback_of_event e with
      | Some px => Some px
      | None => readback t'
      end
  end.

(** ** Hosts *)

(** The SHA-256 digest the host answers is the function [d] of the data,
    whatever the state of the host. *)
Definition digest_host {state} (d : list byte -> list byte)
    (host : Host state) : Prop :=
  forall data st, fst (host _ (Digest "SHA-256" data) st) = d data.

(** The crypto of the host computes SHA-256. *)
Definition sha256_host {state} (host : Host state) : Prop :=
  digest_host SHA256.sha256 host.

(** [^[0-9a-f]{64}$]. *)
Definition is_lower_hex (a : ascii) : bool :=
  let n := N_of_ascii a in
  ((48 <=? n) && (n <=? 57) || (97 <=? n) && (n <=? 102))%N.

Definition matches_hex64 (s : string) : bool :=
  (String.length s =? 64)%nat
  && forallb is_lower_hex (list_ascii_of_string s).

(** A scripted host for tests: what it answers is fixed by a configuration,
    its state hands out fresh handles and remembers the stage of every
    shader it created. *)
Module Mock.

Record config := {
  has_webgl : bool;
  creates_shaders : bool;
  vertex_compiles : bool;
  fragment_compiles : bool;
  creates_program : bool;
  links : bool;
  creates_buffer : bool;
  finds_uniform : bool;
  surface : N * N;
  frame : list byte;
  hash : list byte -> list byte;
  has_element : bool;
}.

Record state := {
  next : N;
  stages : gmap N GLenum;
}.

Definition init : state := {| next := 1; stages := ∅ |}.

Definition fresh (st : state) : state :=
  {| next := next st + 1; stages := stages st |}.

Definition compiles (cfg : config) (st : state) (sh : WebGLShader) : bool :=
  vertex_compiles cfg && fragment_compiles cfg
  || match stages st !! sh with
     | Some VERTEX_SHADER => vertex_compiles cfg
     | Some FRAGMENT_SHADER => fragment_compiles cfg
     | _ => false
     end.

Definition info_log (st : state) (sh : WebGLShader) : option string :=
  match stages st !! sh with
  | Some VERTEX_SHADER => Some "ERROR: vertex stage"
  | Some FRAGMENT_SHADER => Some "ERROR: fragment stage"
  | _ => None
  end.

Definition host (cfg : config) : Host state :=
  fun X c =>
    match c in Call X return state -> X * state with
    | CreateElement _ => fun st =>
        (mkCanvas (next st) (fst (surface cfg)) (snd (surface cfg)) ∅,
         fresh st)
    | GetContext _ contextId => fun st =>
        if has_webgl cfg && String.eqb contextId "webgl"
        then (Some (next st), fresh st) else (None, st)
    | CreateShader _ type => fun st =>
        if creates_shaders cfg
        then (Some (next st),
              {| next := next st + 1;
                 stages := <[next st := type]> (stages st) |})
        else (None, st)
    | GetShaderParameter _ sh _ => fun st => (compiles cfg st sh, st)
    | GetShaderInfoLog _ sh => fun st => (info_log st sh, st)
    | CreateProgram _ => fun st =>
        if creates_program cfg then (Some (next st), fresh st) else (None, st)
    | GetProgramParameter _ _ _ => fun st => (links cfg, st)
    | GetProgramInfoLog _ _ => fun st => (Some "ERROR: link", st)
    | CreateBuffer _ => fun st =>
        if creates_buffer cfg then (Some (next st), fresh st) else (None, st)
    | GetAttribLocation _ _ _ => fun st => (0%Z, st)
    | GetUniformLocation _ _ _ => fun st =>
        if finds_uniform cfg then (Some (next st), fresh st) else (None, st)
    | ReadPixels _ _ _ _ _ _ _ _ => fun st => (frame cfg, st)
    | Digest algorithm data => fun st =>
        (if String.eqb algorithm "SHA-256" then hash cfg data else [], st)
    | GetElementById _ => fun st =>
        if has_element cfg then (Some (next st), fresh st) else (None, st)
    | ShaderSource _ _ _ | CompileShader _ _ | DeleteShader _ _
    | AttachShader _ _ _ | LinkProgram _ _ | UseProgram _ _
    | BindBuffer _ _ _ | BufferData _ _ _ _
    | EnableVertexAttribArray _ _ | VertexAttribPointer _ _ _ _ _ _ _
    | Uniform4f _ _ _ _ _ _ | ClearColor _ _ _ _ _ | Clear _ _
    | DrawArrays _ _ _ _ | ConsoleError _ | ConsoleLog _
    | SetTextContent _ _ => fun st => (tt, st)
    end.

(** Every call succeeds, 1x1 surface, the readback leaves zero bytes. *)
Definition all_ok : config :=
  {| has_webgl := true; creates_shaders := true;
     vertex_compiles := true; fragment_compiles := true;
     creates_program := true; links := true;
     creates_buffer := true; finds_uniform := true;
     surface := (1, 1)%N;
     frame := [Byte.x00; Byte.x00; Byte.x00; Byte.x00];
     hash := SHA256.sha256;
     has_element := true |}.

(** The fragment stage does not compile. *)
Definition bad_fragment : config :=
  {| has_webgl := true; creates_shaders := true;
     vertex_compiles := true; fragment_compiles := false;
     creates_program := true; links := true;
     creates_buffer := true; finds_uniform := true;
     surface := (1, 1)%N;
     frame := [Byte.x00; Byte.x00; Byte.x00; Byte.x00];
     hash := SHA256.sha256;
     has_element := true |}.

(** No WebGL. *)
Definition no_webgl : config :=
  {| has_webgl := false; creates_shaders := true;
     vertex_compiles := true; fragment_compiles := true;
     creates_program := true; links := true;
     creates_buffer := true; finds_uniform := true;
     surface := (1, 1)%N;
     frame := [Byte.x00; Byte.x00; Byte.x00; Byte.x00];
     hash := SHA256.sha256;
     has_element := true |}.

(** [createBuffer] and [getUniformLocation] answer [null]. *)
Definition null_buffer_and_uniform : config :=
  {| has_webgl := true; creates_shaders := true;
     vertex_compiles := true; fragment_compiles := true;
     creates_program := true; links := true;
     creates_buffer := false; finds_uniform := false;
     surface := (1, 1)%N;
     frame := [Byte.x00; Byte.x00; Byte.x00; Byte.x00];
     hash := SHA256.sha256;
     has_element := true |}.

(** A canvas as a browser creates it, 300x150; the readback paints every
    byte 255; the digest is a stub of 32 bytes. *)
Definition browser_default : config :=
  {| has_webgl := true; creates_shaders := true;
     vertex_compiles := true; fragment_compiles := true;
     creates_program := true; links := true;
     creates_buffer := true; finds_uniform := true;
     surface := (300, 150)%N;
     frame := repeat Byte.xff (N.to_nat 180000);
     hash := fun _ => repeat Byte.x2a 32%nat;
     has_element := false |}.

End Mock.


(** The two characters of a byte, written out: high nibble, low nibble. *)
Definition hex_pair (b : byte) : list ascii :=
  let n := Byte.to_N b in
  [JsString.digit (n / 16); JsString.digit (n mod 16)].

(** The two source files. *)
Inductive Source := fingerprint_ts | fp_js.

Definition createDeviceFingerprint (src : Source) {state} (host : Host state)
  : M string :=
  match src with
  | fingerprint_ts => TS.createDeviceFingerprint host
  | fp_js => JS.createDeviceFingerprint host
  end.

(** The graphics context of the host reports success for every call whose
    outcome the program tests. *)
Record gl_succeeds {state} (host : Host state) : Prop := {
  ok_context : forall canvas st,
    fst (host _ (GetContext canvas "webgl") st) <> None;
  ok_createShader : forall gl type st,
    fst (host _ (CreateShader gl type) st) <> None;
  ok_compile : forall gl sh st,
    fst (host _ (GetShaderParameter gl sh COMPILE_STATUS) st) = true;
  ok_createProgram : forall gl st,
    fst (host _ (CreateProgram gl) st) <> None;
  ok_link : forall gl program st,
    fst (host _ (GetProgramParameter gl program LINK_STATUS) st) = true;
}.

(** Every canvas the host creates has a [w] x [h] drawing buffer. *)
Definition surface_host {state} (w h : N) (host : Host state) : Prop :=
  forall tagName st,
    let canvas := fst (host _ (CreateElement tagName) st) in
    width canvas = w /\ height canvas = h.

(** Every readback of the host writes zero bytes only. *)
Definition zero_readback_host {state} (host : Host state) : Prop :=
  forall gl x y w h format type pixels st,
    Forall (eq Byte.x00)
      (fst (host _ (ReadPixels gl x y w h format type pixels) st)).

(** The canvas after the four style assignments of the source. *)
Definition styled (canvas : HTMLCanvasElement) : HTMLCanvasElement :=
  set_style (set_style (set_style (set_style canvas
    "position" "absolute") "top" "-9999px") "width" "1px") "height" "1px".

(** What a run of [createShader] can look like: no shader object and a
    diagnostic; or one attempt (source, compile, status) that either
    succeeds or is followed by the diagnostic built from the info log of
    that shader, and its deletion. *)
Definition createShader_outcome (gl : WebGLRenderingContext) (type : GLenum)
    (source : string) (tr : list Event)
    (r : Completion (option WebGLShader)) : Prop :=
  (tr = [Ev (CreateShader gl type) None;
         Ev (ConsoleError "Error creating shader.") tt]
   /\ r = Returned None)
  \/ exists sh status,
       let attempt :=
         [Ev (CreateShader gl type) (Some sh);
          Ev (ShaderSource gl sh source) tt;
          Ev (CompileShader gl sh) tt;
          Ev (GetShaderParameter gl sh COMPILE_STATUS) status] in
       if status then tr = attempt /\ r = Returned (Some sh)
       else exists log,
         tr = attempt
              ++ [Ev (GetShaderInfoLog gl sh) log;
                  Ev (ConsoleError
                        ("An error occurred compiling the shaders: "
                         +:+ JsString.of_nullable log)) tt;
                  Ev (DeleteShader gl sh) tt]
         /\ r = Returned None.

(** What a run of [createShaderProgram] can look like: the vertex stage,
    the fragment stage, then, with both shaders, one attempt to link
    (create, attach, attach, link, status) that either succeeds or is
    followed by the diagnostic built from the program's info log. *)
Definition createShaderProgram_outcome {state} (host : Host state)
    (gl : WebGLRenderingContext) (vertexSource fragmentSource : string)
    (st : state) (tr : list Event) (r : Completion (option WebGLProgram))
  : Prop :=
  exists stv tv vertexShader stf tf fragmentShader rest,
    TS.createShader host gl VERTEX_SHADER vertexSource st
    = (stv, tv, Returned vertexShader)
    /\ TS.createShader host gl FRAGMENT_SHADER fragmentSource stv
       = (stf, tf, Returned fragmentShader)
    /\ tr = tv ++ tf ++ rest
    /\ match vertexShader, fragmentShader with
       | Some vs, Some fs =>
           exists program status,
             let linking :=
               [Ev (CreateProgram gl) program;
                Ev (AttachShader gl program vs) tt;
                Ev (AttachShader gl program fs) tt;
                Ev (LinkProgram gl program) tt;
                Ev (GetProgramParameter gl program LINK_STATUS) status]
             in
             if status then rest = linking /\ r = Returned program
             else exists log,
               rest = linking
                      ++ [Ev (GetProgramInfoLog gl program) log;
                          Ev (ConsoleError
                                ("Unable to initialize the shader program: "
                                 +:+ JsString.of_nullable log)) tt]
               /\ r = Returned None
       | _, _ => rest = [] /\ r = Returned None
       end.

(** ** More ways to read a trace *)

Definition is_createShader {X} (c : Call X) : bool :=
  match c with CreateShader _ _ => true | _ => false end.
Definition is_createProgram {X} (c : Call X) : bool :=
  match c with CreateProgram _ => true | _ => false end.
Definition is_linkProgram {X} (c : Call X) : bool :=
  match c with LinkProgram _ _ => true | _ => false end.

(** Number of events of the trace that satisfy [p]. *)
Definition count_events (p : Event -> bool) (t : list Event) : nat :=
  List.length (List.filter p t).

(** [getContext] answered a context. *)
Definition context_given (e : Event) : bool :=
  match e with
  | Ev c r =>
      match c in Call X return X -> bool with
      | GetContext _ _ => fun r => match r with Some _ => true | _ => false end
      | _ => fun _ => false
      end r
  end.

(** [createProgram] answered [null]. *)
Definition program_null (e : Event) : bool :=
  match e with
  | Ev c r =>
      match c in Call X return X -> bool with
      | CreateProgram _ => fun r => match r with None => true | _ => false end
      | _ => fun _ => false
      end r
  end.

(** The stages for which a shader object was requested, in order. *)
Definition requested_stage (e : Event) : option GLenum :=
  match e with
  | Ev c _ =>
      match c with
      | CreateShader _ type => Some type
      | _ => None
      end
  end.

Definition requested_stages (t : list Event) : list GLenum :=
  omap requested_stage t.

(** The shaders handed to [deleteShader], in order. *)
Definition deleted_shader (e : Event) : option WebGLShader :=
  match e with
  | Ev c _ =>
      match c with
      | DeleteShader _ sh => Some sh
      | _ => None
      end
  end.

Definition deleted_shaders (t : list Event) : list WebGLShader :=
  omap deleted_shader t.

(** The shaders whose compile status was read as false, in order. *)
Definition uncompiled_shader (e : Event) : option WebGLShader :=
  match e with
  | Ev c r =>
      match c in Call X return X -> option WebGLShader with
      | GetShaderParameter _ sh COMPILE_STATUS =>
          fun r => if r then None else Some sh
      | _ => fun _ => None
      end r
  end.

Definition uncompiled_shaders (t : list Event) : list WebGLShader :=
  omap uncompiled_shader t.

(** The bytes the host answered to the digest call of the trace. *)
Definition digest_of_event (e : Event) : option (list byte) :=
  match e with
  | Ev c r =>
      match c in Call X return X -> option (list byte) with
      | Digest _ _ => fun r => Some r
      | _ => fun _ => None
      end r
  end.

Fixpoint digest_answer (t : list Event) : option (list byte) :=
  match t with
  | [] => None
  | e :: t' =>
      match digest_of_event e with
      | Some d => Some d
      | None => digest_answer t'
      end
  end.



(** Reading a lowercase hex string back into bytes. *)
Definition hex_value (a : ascii) : option N :=
  let n := N_of_ascii a in
  if ((48 <=? n) && (n <=? 57))%N then Some (n - 48)%N
  else if ((97 <=? n) && (n <=? 102))%N then Some (n - 87)%N
  else None.

Fixpoint unhex_chars (l : list ascii) : option (list byte) :=
  match l with
  | [] => Some []
  | hi :: lo :: rest =>
      match hex_value hi, hex_value lo, unhex_chars rest with
      | Some h, Some l, Some bs =>
          match Byte.of_N (16 * h + l) with
          | Some b => Some (b :: bs)
          | None => None
          end
      | _, _, _ => None
      end
  | [_] => None
  end.

Definition unhex (s : string) : option (list byte) :=
  unhex_chars (list_ascii_of_string s).

(** [createProgram] answers [null] while the link status reads true. *)
Definition null_program_linked : Mock.config :=
  {| Mock.has_webgl := true; Mock.creates_shaders := true;
     Mock.vertex_compiles := true; Mock.fragment_compiles := true;
     Mock.creates_program := false; Mock.links := true;
     Mock.creates_buffer := true; Mock.finds_uniform := true;
     Mock.surface := (1, 1)%N;
     Mock.frame := [Byte.x00; Byte.x00; Byte.x00; Byte.x00];
     Mock.hash := SHA256.sha256;
     Mock.has_element := true |}.

(** A canvas of width 0; the readback still offers bytes. *)
Definition zero_width : Mock.config :=
  {| Mock.has_webgl := true; Mock.creates_shaders := true;
     Mock.vertex_compiles := true; Mock.fragment_compiles := true;
     Mock.creates_program := true; Mock.links := true;
     Mock.creates_buffer := true; Mock.finds_uniform := true;
     Mock.surface := (0, 150)%N;
     Mock.frame := [Byte.xff; Byte.xff; Byte.x00; Byte.xff];
     Mock.hash := SHA256.sha256;
     Mock.has_element := true |}.

(** Neither stage compiles. *)
Definition bad_both : Mock.config :=
  {| Mock.has_webgl := true; Mock.creates_shaders := true;
     Mock.vertex_compiles := false; Mock.fragment_compiles := false;
     Mock.creates_program := true; Mock.links := true;
     Mock.creates_buffer := true; Mock.finds_uniform := true;
     Mock.surface := (1, 1)%N;
     Mock.frame := [Byte.x00; Byte.x00; Byte.x00; Byte.x00];
     Mock.hash := SHA256.sha256;
     Mock.has_element := true |}.

(** The digest is a stub of 20 bytes. *)
Definition short_digest : Mock.config :=
  {| Mock.has_webgl := true; Mock.creates_shaders := true;
     Mock.vertex_compiles := true; Mock.fragment_compiles := true;
     Mock.creates_program := true; Mock.links := true;
     Mock.creates_buffer := true; Mock.finds_uniform := true;
     Mock.surface := (1, 1)%N;
     Mock.frame := [Byte.x00; Byte.x00; Byte.x00; Byte.x00];
     Mock.hash := fun _ => repeat Byte.x0f 20%nat;
     Mock.has_element := true |}.

(** The host calls of a run that returns, in order. *)
Definition protocol_trace (canvas : HTMLCanvasElement)
    (gl : WebGLRenderingContext) (vs fs : WebGLShader)
    (program : WebGLProgram) (buffer : option WebGLBuffer) (location : Z)
    (uniform : option WebGLUniformLocation) (data digest : list byte)
  : list Event :=
  let buf := Uint8Array_new (width canvas * height canvas * 4) in
  [Ev (CreateElement "canvas") canvas;
   Ev (GetContext canvas "webgl") (Some gl);
   Ev (CreateShader gl VERTEX_SHADER) (Some vs);
   Ev (ShaderSource gl vs TS.vertexShaderSource) tt;
   Ev (CompileShader gl vs) tt;
   Ev (GetShaderParameter gl vs COMPILE_STATUS) true;
   Ev (CreateShader gl FRAGMENT_SHADER) (Some fs);
   Ev (ShaderSource gl fs TS.fragmentShaderSource) tt;
   Ev (CompileShader gl fs) tt;
   Ev (GetShaderParameter gl fs COMPILE_STATUS) true;
   Ev (CreateProgram gl) (Some program);
   Ev (AttachShader gl (Some program) vs) tt;
   Ev (AttachShader gl (Some program) fs) tt;
   Ev (LinkProgram gl (Some program)) tt;
   Ev (GetProgramParameter gl (Some program) LINK_STATUS) true;
   Ev (UseProgram gl program) tt;
   Ev (CreateBuffer gl) buffer;
   Ev (BindBuffer gl ARRAY_BUFFER buffer) tt;
   Ev (BufferData gl ARRAY_BUFFER [0; 1; -1; -1; 1; -1]%Z STATIC_DRAW) tt;
   Ev (GetAttribLocation gl program "aVertexPosition") location;
   Ev (EnableVertexAttribArray gl location) tt;
   Ev (VertexAttribPointer gl location 2 FLOAT false 0 0) tt;
   Ev (GetUniformLocation gl program "uColor") uniform;
   Ev (Uniform4f gl uniform 1 1 0 1) tt;
   Ev (ClearColor gl 0 0 0 1) tt;
   Ev (Clear gl COLOR_BUFFER_BIT) tt;
   Ev (DrawArrays gl TRIANGLES 0 3) tt;
   Ev (ReadPixels gl 0 0 (width canvas) (height canvas)
                  RGBA UNSIGNED_BYTE buf) data;
   Ev (Digest "SHA-256" (typed_array_write buf data)) digest].

(** * Properties *)

(** ** Test vectors *)

Example sha256_empty :
  hex_of_bytes (SHA256.sha256 []) =
  "e3b0c44298fc1c149afbf4c8996fb92427ae41e4649b934ca495991b7852b855".
Proof. vm_compute. reflexivity. Qed.

Example sha256_abc :
  hex_of_bytes (SHA256.sha256 (bytes_of_string "abc")) =
  "ba7816bf8f01cfea414140de5dae2223b00361a396177a9cb410ff61f20015ad".
Proof. vm_compute. reflexivity. Qed.

Example sha256_two_blocks :
  hex_of_bytes (SHA256.sha256 (Uint8Array_new 119)) =
  "f616b0d54e78571a9611f343c9f8e022e859e920381ab0e4d3da01e193a7bd7e".
Proof. vm_compute. reflexivity. Qed.

Example sha256_constants :
  (List.length SHA256.K, nth 0 SHA256.K 0%Z, nth 63 SHA256.K 0%Z,
   SHA256.ra SHA256.H0, SHA256.rh SHA256.H0)
  = (64%nat, 0x428a2f98%Z, 0xc67178f2%Z, 0x6a09e667%Z, 0x5be0cd19%Z).
Proof. vm_compute. reflexivity. Qed.

Example toString_samples :
  (JsString.toString 16 0, JsString.toString 16 10, JsString.toString 16 255,
   JsString.toString 16 4096, JsString.toString 2 5, JsString.toString 36 35)
  = ("0", "a", "ff", "1000", "101", "z").
Proof. vm_compute. reflexivity. Qed.

Example padStart_samples :
  (JsString.padStart "a" 2 "0", JsString.padStart "ff" 2 "0",
   JsString.padStart "abc" 2 "0", JsString.padStart "abc" 10 "xy",
   JsString.padStart "abc" 6 "")
  = ("0a", "ff", "abc", "xyxyxyxabc", "abc").
Proof. vm_compute. reflexivity. Qed.

Example join_samples :
  (JsString.join "" ["0a"; "ff"; "00"], JsString.join "," ["a"; "b"],
   JsString.join "," [])
  = ("0aff00", "a,b", "").
Proof. vm_compute. reflexivity. Qed.

(** ** The hex encoding *)

Lemma hex_of_byte_pair (b : byte) :
  list_ascii_of_string (hex_of_byte b) = hex_pair b.
Proof. destruct b; vm_compute; reflexivity. Qed.

Lemma hex_pair_lower (b : byte) : forallb is_lower_hex (hex_pair b) = true.
Proof. destruct b; vm_compute; reflexivity. Qed.

Lemma list_ascii_of_append (s1 s2 : string) :
  list_ascii_of_string (s1 +:+ s2)
  = list_ascii_of_string s1 ++ list_ascii_of_string s2.
Proof.
  induction s1 as [|a s1 IH]; simpl; [reflexivity|].
  now rewrite IH.
Qed.

Lemma join_empty_chars (l : list string) :
  list_ascii_of_string (JsString.join "" l)
  = flat_map list_ascii_of_string l.
Proof.
  induction l as [|x l IH]; [reflexivity|].
  destruct l as [|y rest].
  - simpl. now rewrite app_nil_r.
  - change (JsString.join "" (x :: y :: rest))
      with (x +:+ JsString.join "" (y :: rest)).
    rewrite list_ascii_of_append, IH. reflexivity.
Qed.

Lemma hex_of_bytes_chars (bs : list byte) :
  list_ascii_of_string (hex_of_bytes bs) = flat_map hex_pair bs.
Proof.
  unfold hex_of_bytes. rewrite join_empty_chars.
  induction bs as [|b bs IH]; simpl; [reflexivity|].
  now rewrite hex_of_byte_pair, IH.
Qed.

Lemma string_length_chars (s : string) :
  String.length s = List.length (list_ascii_of_string s).
Proof. induction s; simpl; congruence. Qed.

Lemma flat_map_hex_pair_length (bs : list byte) :
  List.length (flat_map hex_pair bs) = 2 * List.length bs.
Proof. induction bs; simpl; lia. Qed.

Lemma hex_of_bytes_length (bs : list byte) :
  String.length (hex_of_bytes bs) = 2 * List.length bs.
Proof.
  now rewrite string_length_chars, hex_of_bytes_chars,
    flat_map_hex_pair_length.
Qed.

Lemma hex_of_bytes_lower (bs : list byte) :
  forallb is_lower_hex (list_ascii_of_string (hex_of_bytes bs)) = true.
Proof.
  rewrite hex_of_bytes_chars.
  induction bs as [|b bs IH]; [reflexivity|].
  change (flat_map hex_pair (b :: bs)) with (hex_pair b ++ flat_map hex_pair bs).
  now rewrite forallb_app, hex_pair_lower, IH.
Qed.

Lemma sha256_length (msg : list byte) :
  List.length (SHA256.sha256 msg) = 32.
Proof. reflexivity. Qed.

Lemma hex_of_sha256_matches (msg : list byte) :
  matches_hex64 (hex_of_bytes (SHA256.sha256 msg)) = true.
Proof.
  unfold matches_hex64.
  rewrite hex_of_bytes_length, sha256_length, hex_of_bytes_lower.
  reflexivity.
Qed.

(** The formatting expression of the source is [hex_of_bytes]. *)
Lemma source_hex_is_hex_of_bytes (hashBuffer : list byte) :
  JsString.join ""
    (map (fun b => JsString.padStart (JsString.toString 16 b) 2 "0")
         (map Byte.to_N hashBuffer))
  = hex_of_bytes hashBuffer.
Proof. unfold hex_of_bytes, hex_of_byte. now rewrite map_map. Qed.

(** ** Typed arrays *)

Lemma Uint8Array_new_length (n : N) :
  List.length (Uint8Array_new n) = N.to_nat n.
Proof. apply repeat_length. Qed.

Lemma typed_array_write_length (buf data : list byte) :
  List.length (typed_array_write buf data) = List.length buf.
Proof.
  unfold typed_array_write.
  rewrite length_app, length_firstn, length_skipn. lia.
Qed.

Lemma typed_array_write_zeros (n : N) (data : list byte) :
  Forall (eq Byte.x00) data ->
  typed_array_write (Uint8Array_new n) data = Uint8Array_new n.
Proof.
  intros Hdata.
  assert (Hall : Forall (eq Byte.x00)
                        (typed_array_write (Uint8Array_new n) data)).
  { unfold typed_array_write. apply Forall_app; split.
    - now apply Forall_take.
    - apply Forall_drop. unfold Uint8Array_new.
      induction (N.to_nat n); simpl; constructor; auto. }
  apply Forall_eq_repeat in Hall.
  rewrite typed_array_write_length, Uint8Array_new_length in Hall.
  exact Hall.
Qed.

(** ** Running the program against an arbitrary host *)

(** Unfold the program down to the host calls. *)
Ltac unfold_program :=
  cbv beta delta
    [TS.createDeviceFingerprint TS.createShaderProgram TS.createShader
     TS.main JS.main JS.createDeviceFingerprint JS.createShaderProgram
     JS.createShader bind call ret throw trace_of result_of].

(** Answer the next host call, or split on what the host answered. *)
Ltac exec_step host :=
  match goal with
  | |- context [host ?X ?c ?s] =>
      is_var s; destruct (host X c s) as [? ?] eqn:?
  | |- context [match ?x with Some _ => _ | None => _ end] =>
      is_var x; destruct x
  | |- context [negb ?x] => is_var x; destruct x
  end.

Ltac exec host :=
  unfold_program;
  repeat (cbn beta iota zeta delta [negb fst snd app]; exec_step host);
  cbn beta iota zeta delta [negb fst snd app width height set_style].

(** Name the outcome of the run in the goal, then run it. *)
Ltac exec_run host :=
  lazymatch goal with
  | |- context [TS.createDeviceFingerprint host ?st] =>
      let Hrun := fresh "Hrun" in
      destruct (TS.createDeviceFingerprint host st) as [[? ?] ?] eqn:Hrun;
      cbn [trace_of result_of fst snd];
      revert Hrun; exec host; intros [= <- <- <-]
  end.

(** Answer the calls in the goal from the equations already recorded. *)
Ltac replay host :=
  repeat (cbn beta iota zeta delta [negb fst snd app];
          match goal with
          | H : host ?X ?c ?s = _ |- context [host ?X ?c ?s] => rewrite H
          end);
  cbn beta iota zeta delta [negb fst snd app].

Section Runs.
Context {state : Type} (host : Host state).

(** What a successful run looks like: the canvas, then calls none of which
    reads pixels or hashes, then one readback into a fresh buffer of
    [width * height * 4] bytes and one digest of that buffer, whose hex
    encoding is the result. *)
Lemma run_returned (st st' : state) (tr : list Event) (s : string) :
  TS.createDeviceFingerprint host st = (st', tr, Returned s) ->
  exists canvas gl pre data digest std,
    let buf := Uint8Array_new (width canvas * height canvas * 4) in
    tr = Ev (CreateElement "canvas") canvas :: pre
         ++ [Ev (ReadPixels gl 0 0 (width canvas) (height canvas)
                            RGBA UNSIGNED_BYTE buf) data;
             Ev (Digest "SHA-256" (typed_array_write buf data)) digest]
    /\ fst (host _ (CreateElement "canvas") st) = canvas
    /\ existsb (on_call (@is_readPixels)) pre = false
    /\ existsb (on_call (@is_digest)) pre = false
    /\ existsb stage_failed pre = false
    /\ existsb link_failed pre = false
    /\ host _ (Digest "SHA-256" (typed_array_write buf data)) std
       = (digest, st')
    /\ s = hex_of_bytes digest.
Proof.
  revert st' tr s. exec host; intros ? ? ? H; try discriminate H.
  rewrite source_hex_is_hex_of_bytes in H.
  lazymatch type of H with
  | (_, Ev _ ?c :: ?rest, _) = _ =>
      lazymatch goal with
      | Hg : host _ (GetContext _ _) _ = (Some ?gl, _),
        Hd : host _ (Digest _ (typed_array_write _ ?data)) ?std = (?dg, _)
        |- _ =>
          let pre := eval cbv [firstn] in (firstn 26 rest) in
          exists c, gl, pre, data, dg, std
      end
  end.
  injection H as <- <- <-. cbn zeta.
  repeat split; try reflexivity; assumption.
Qed.

Lemma both_sources (src : Source) :
  createDeviceFingerprint src host = TS.createDeviceFingerprint host.
Proof. destruct src; reflexivity. Qed.

Lemma no_readPixels_event (e : Event) :
  on_call (@is_readPixels) e = false -> readback_of_event e = None.
Proof. destruct e as [X c r]; destruct c; simpl; congruence. Qed.

Lemma readback_skip (pre rest : list Event) :
  existsb (on_call (@is_readPixels)) pre = false ->
  readback (pre ++ rest) = readback rest.
Proof.
  induction pre as [|e pre IH]; simpl; [reflexivity|].
  intros H. apply orb_false_iff in H as [He Hpre].
  now rewrite (no_readPixels_event e He), IH.
Qed.

Lemma count_calls_app (p : forall X, Call X -> bool) (t1 t2 : list Event) :
  count_calls p (t1 ++ t2) = (count_calls p t1 + count_calls p t2)%nat.
Proof. unfold count_calls. now rewrite List.filter_app, length_app. Qed.

Lemma count_calls_none (p : forall X, Call X -> bool) (t : list Event) :
  existsb (on_call p) t = false -> count_calls p t = 0%nat.
Proof.
  unfold count_calls.
  induction t as [|e t IH]; simpl; [reflexivity|].
  intros H. apply orb_false_iff in H as [He Ht].
  rewrite He. auto.
Qed.

(** The result of a successful run in terms of what was read back, for a
    host whose digest is the function [d]. *)
Lemma fingerprint_of_readback (d : list byte -> list byte)
    (src : Source) (st st' : state) (tr : list Event) (s : string) :
  digest_host d host ->
  createDeviceFingerprint src host st = (st', tr, Returned s) ->
  exists pixels, readback tr = Some pixels /\ s = hex_of_bytes (d pixels).
Proof.
  intros Hd Hrun. rewrite both_sources in Hrun.
  destruct (run_returned _ _ _ _ Hrun)
    as (canvas & gl & pre & data & digest & std & Htr & _ & Hrp & _ & _ & _
        & Hdig & Hs).
  cbn zeta in Htr, Hdig.
  exists (typed_array_write
            (Uint8Array_new (width canvas * height canvas * 4)) data).
  split.
  - rewrite Htr. cbn [readback readback_of_event].
    rewrite readback_skip by exact Hrp. reflexivity.
  - rewrite Hs. f_equal. rewrite <- (Hd _ std), Hdig. reflexivity.
Qed.

(** C1: a successful run returns the lowercase hex encoding of the 32-byte
    SHA-256 digest of the pixel buffer that was read back: every digest
    byte gives its two hex characters (high nibble, low nibble, so
    zero-padded), in buffer order, nothing in between, and the string
    matches [^[0-9a-f]{64}$]. The digest is the host's; the host is one
    whose crypto computes SHA-256. *)
Theorem fingerprint_is_hex_of_sha256
    (src : Source) (st st' : state) (tr : list Event) (s : string) :
  sha256_host host ->
  createDeviceFingerprint src host st = (st', tr, Returned s) ->
  exists pixels,
    readback tr = Some pixels
    /\ List.length (SHA256.sha256 pixels) = 32%nat
    /\ s = hex_of_bytes (SHA256.sha256 pixels)
    /\ list_ascii_of_string s = flat_map hex_pair (SHA256.sha256 pixels)
    /\ matches_hex64 s = true.
Proof.
  intros Hsha Hrun.
  destruct (fingerprint_of_readback _ _ _ _ _ _ Hsha Hrun)
    as (pixels & Hrb & ->).
  exists pixels. repeat split.
  - exact Hrb.
  - apply hex_of_bytes_chars.
  - apply hex_of_sha256_matches.
Qed.

(** C2: when the graphics context succeeds at every call, the surface is
    1x1 and the readback writes zero bytes only, the fingerprint is the hex
    SHA-256 digest of four zero bytes. *)
Theorem fingerprint_of_blank_pixel (src : Source) (st : state) :
  gl_succeeds host ->
  surface_host 1 1 host ->
  zero_readback_host host ->
  sha256_host host ->
  result_of (createDeviceFingerprint src host st)
  = Returned
      "df3f619804a92fdb4057192dc43dd748ea778adc52bc498ce80524c014b81119".
Proof.
  intros [Hctx Hsh Hcomp Hprog Hlink] Hsurf Hzero Hsha.
  rewrite both_sources.
  pose proof (Hsurf "canvas" st) as Hdim. cbn zeta in Hdim. revert Hdim.
  exec host; intros [Hw Hh].
  all: try match goal with
    | Hq : host _ (GetContext ?c _) ?s = (None, _) |- _ =>
        exfalso; apply (Hctx c s); now rewrite Hq
    | Hq : host _ (CreateShader ?g ?t) ?s = (None, _) |- _ =>
        exfalso; apply (Hsh g t s); now rewrite Hq
    | Hq : host _ (CreateProgram ?g) ?s = (None, _) |- _ =>
        exfalso; apply (Hprog g s); now rewrite Hq
    | Hq : host _ (GetShaderParameter ?g ?sh _) ?s = (false, _) |- _ =>
        exfalso; pose proof (Hcomp g sh s) as Hc; rewrite Hq in Hc;
        discriminate Hc
    | Hq : host _ (GetProgramParameter ?g ?pr _) ?s = (false, _) |- _ =>
        exfalso; pose proof (Hlink g pr s) as Hc; rewrite Hq in Hc;
        discriminate Hc
    end.
  rewrite source_hex_is_hex_of_bytes. f_equal.
  match goal with
  | Hq : host _ (Digest _ ?px) ?s = (?dg, _) |- _ =>
      pose proof (Hsha px s) as Hd; rewrite Hq in Hd; cbn [fst] in Hd;
      rewrite Hd
  end.
  cbn [width height set_style]. rewrite Hw, Hh.
  rewrite typed_array_write_zeros.
  - vm_compute. reflexivity.
  - match goal with
    | Hq : host _ (ReadPixels ?g ?x ?y ?w ?h ?f ?t ?px) ?s = (?data, _) |- _ =>
        pose proof (Hzero g x y w h f t px s) as Hz; now rewrite Hq in Hz
    end.
Qed.

(** C4: when the host has no WebGL context to give, the run is exactly
    the canvas creation and one [getContext("webgl")] request, and ends in
    the error "WebGL is not supported": no other context is requested and
    no shader, draw, readback or digest call is made. *)
Theorem no_webgl_is_unsupported
    (src : Source) (st st1 st2 : state) (canvas : HTMLCanvasElement) :
  host _ (CreateElement "canvas") st = (canvas, st1) ->
  host _ (GetContext canvas "webgl") st1 = (None, st2) ->
  createDeviceFingerprint src host st
  = (st2,
     [Ev (CreateElement "canvas") canvas;
      Ev (GetContext canvas "webgl") None],
     Thrown (Error "WebGL is not supported")).
Proof.
  intros Hc Hg. rewrite both_sources. unfold_program.
  rewrite Hc. cbn beta iota. rewrite Hg. reflexivity.
Qed.

(** C5: when a shader stage fails (either one) or the program fails to
    link, the run ends in the error "Shader program could not be
    initialized", the same whichever step failed; nothing was drawn, read
    back or hashed, and a diagnostic went to [console.error]. *)
Theorem pipeline_failure_is_fatal (src : Source) (st : state) :
  let out := createDeviceFingerprint src host st in
  existsb stage_failed (trace_of out) || existsb link_failed (trace_of out)
  = true ->
  result_of out = Thrown (Error "Shader program could not be initialized")
  /\ count_calls (@is_drawArrays) (trace_of out) = 0%nat
  /\ count_calls (@is_readPixels) (trace_of out) = 0%nat
  /\ count_calls (@is_digest) (trace_of out) = 0%nat
  /\ (1 <= count_calls (@is_consoleError) (trace_of out))%nat.
Proof.
  rewrite both_sources. cbn zeta.
  exec_run host; intros H; try discriminate H.
  all: repeat split; cbn; lia.
Qed.

(** C7: in a successful run the pixel buffer is created with exactly
    [canvas.width * canvas.height * 4] bytes; the one [readPixels] call
    starts at (0,0), spans [canvas.width] x [canvas.height], asks for
    RGBA / UNSIGNED_BYTE and fills that buffer, which keeps its length; the
    one digest call of the run takes the filled buffer. *)
Theorem readback_covers_surface
    (src : Source) (st st' : state) (tr : list Event) (s : string) :
  createDeviceFingerprint src host st = (st', tr, Returned s) ->
  exists canvas gl pre data digest,
    let size := (width canvas * height canvas * 4)%N in
    let buf := Uint8Array_new size in
    let pixels := typed_array_write buf data in
    tr = Ev (CreateElement "canvas") canvas :: pre
         ++ [Ev (ReadPixels gl 0 0 (width canvas) (height canvas)
                            RGBA UNSIGNED_BYTE buf) data;
             Ev (Digest "SHA-256" pixels) digest]
    /\ List.length buf = N.to_nat size
    /\ List.length pixels = N.to_nat size
    /\ count_calls (@is_readPixels) tr = 1%nat
    /\ count_calls (@is_digest) tr = 1%nat
    /\ s = hex_of_bytes digest.
Proof.
  intros Hrun. rewrite both_sources in Hrun.
  destruct (run_returned _ _ _ _ Hrun)
    as (canvas & gl & pre & data & digest & std & Htr & _ & Hrp & Hdg & _ & _
        & _ & Hs).
  exists canvas, gl, pre, data, digest. cbn zeta in *.
  split; [exact Htr|].
  split; [apply Uint8Array_new_length|].
  split; [now rewrite typed_array_write_length, Uint8Array_new_length|].
  rewrite Htr.
  change (?e :: pre ++ ?l) with ([e] ++ pre ++ l).
  rewrite !count_calls_app, !(count_calls_none _ pre) by assumption.
  repeat split; try reflexivity. exact Hs.
Qed.

(** C10: a [null] handle reaches a host call exactly when [createProgram],
    [createBuffer] or [getUniformLocation] answered [null]: their results
    are passed on unchecked.  The only errors the procedure raises itself
    are the two behind its checks of the context and of the shader
    program. *)
Theorem null_reaches_host_iff_unchecked (src : Source) (st : state) :
  let out := createDeviceFingerprint src host st in
  existsb (on_call (@passes_null)) (trace_of out)
  = existsb unchecked_null (trace_of out)
  /\ (forall e, result_of out = Thrown e ->
       e = Error "WebGL is not supported"
       \/ e = Error "Shader program could not be initialized").
Proof.
  rewrite both_sources. cbn zeta.
  exec_run host.
  all: split; [|intros e He; inversion He; auto].
  all: cbn [existsb on_call passes_null unchecked_null orb].
  all: repeat match goal with
         | |- context [match ?x with Some _ => _ | None => _ end] =>
             is_var x; destruct x
         end; reflexivity.
Qed.

(** C6: [createShader] hands the source to the host, compiles once and
    reads the compile status; when it is false it logs the info log of that
    very shader behind a fixed prefix, deletes the shader and returns
    [null].  [createShaderProgram] runs it for the vertex and then the
    fragment stage; with both shaders it creates a program, attaches the
    two, links once and reads the link status; when it is false it logs
    the program's info log and returns [null].  Nothing is tried twice. *)
Theorem shader_steps_report_failure (gl : WebGLRenderingContext) :
  (forall type source st st' tr r,
     TS.createShader host gl type source st = (st', tr, r) ->
     createShader_outcome gl type source tr r)
  /\ (forall vertexSource fragmentSource st st' tr r,
       TS.createShaderProgram host gl vertexSource fragmentSource st
       = (st', tr, r) ->
       createShaderProgram_outcome host gl vertexSource fragmentSource
                                   st tr r).
Proof.
  unfold createShader_outcome, createShaderProgram_outcome. split.
  - intros type source st. exec host; intros ? ? ? [= <- <- <-].
    all: repeat match goal with u : unit |- _ => destruct u end.
    + right. eexists _, true. cbn zeta. auto.
    + right. eexists _, false. cbn zeta. eauto.
    + left. auto.
  - intros vertexSource fragmentSource st.
    exec host; intros ? ? ? [= <- <- <-].
    all: repeat match goal with u : unit |- _ => destruct u end.
    all: do 7 eexists.
    all: split; [reflexivity|]; split; [replay host; reflexivity|].
    all: split; [cbn [app]; reflexivity|].
    all: cbn beta iota; auto.
    + eexists _, true. cbn zeta. auto.
    + eexists _, false. cbn zeta. eauto.
Qed.

(** C9: the four style assignments set the CSS box to 1px by 1px and
    leave [canvas.width] and [canvas.height] as the host created them; the
    pixel buffer and the extent of [readPixels] are computed from these two,
    so a canvas created 300 by 150 is read back as 300 * 150 * 4 = 180000
    bytes, not the 4 bytes of one pixel. *)
Theorem css_size_leaves_drawing_buffer
    (src : Source) (st st1 st' : state) (canvas : HTMLCanvasElement)
    (tr : list Event) (s : string) :
  host _ (CreateElement "canvas") st = (canvas, st1) ->
  width canvas = 300%N ->
  height canvas = 150%N ->
  createDeviceFingerprint src host st = (st', tr, Returned s) ->
  (style (styled canvas) !! "width" = Some "1px"
   /\ style (styled canvas) !! "height" = Some "1px")
  /\ (width (styled canvas) = 300%N /\ height (styled canvas) = 150%N)
  /\ exists gl pre data digest,
       let buf := Uint8Array_new 180000 in
       tr = pre
            ++ [Ev (ReadPixels gl 0 0 300 150 RGBA UNSIGNED_BYTE buf) data;
                Ev (Digest "SHA-256" (typed_array_write buf data)) digest]
       /\ N.of_nat (List.length buf) = 180000%N
       /\ N.of_nat (List.length (typed_array_write buf data)) = 180000%N.
Proof.
  intros Hc Hw Hh Hrun. rewrite both_sources in Hrun.
  split; [|split].
  - unfold styled, set_style; cbn [style]. split.
    + rewrite lookup_insert_ne by discriminate. apply lookup_insert_eq.
    + apply lookup_insert_eq.
  - unfold styled, set_style; cbn [width height]. auto.
  - destruct (run_returned _ _ _ _ Hrun)
      as (c & gl & pre & data & digest & std & Htr & Hfst & _).
    rewrite Hc in Hfst. cbn [fst] in Hfst. subst c.
    cbn zeta in Htr. rewrite Hw, Hh in Htr.
    change (300 * 150 * 4)%N with 180000%N in Htr.
    exists gl, (Ev (CreateElement "canvas") canvas :: pre), data, digest.
    cbn zeta. split; [exact Htr|].
    rewrite typed_array_write_length, Uint8Array_new_length.
    split; apply N2Nat.id.
Qed.

End Runs.

(** C3: two successful runs, on any two hosts in any two states, whose
    readbacks left the same bytes in the pixel buffer return the same
    string, the digest being the same function of the bytes in both. *)
Theorem same_readback_same_fingerprint
    {state1 state2 : Type} (host1 : Host state1) (host2 : Host state2)
    (d : list byte -> list byte) (src1 src2 : Source)
    (st1 st1' : state1) (st2 st2' : state2)
    (tr1 tr2 : list Event) (s1 s2 : string) :
  digest_host d host1 ->
  digest_host d host2 ->
  createDeviceFingerprint src1 host1 st1 = (st1', tr1, Returned s1) ->
  createDeviceFingerprint src2 host2 st2 = (st2', tr2, Returned s2) ->
  readback tr1 = readback tr2 ->
  s1 = s2.
Proof.
  intros Hd1 Hd2 Hrun1 Hrun2 Hsame.
  destruct (fingerprint_of_readback host1 d _ _ _ _ _ Hd1 Hrun1)
    as (px1 & Hrb1 & ->).
  destruct (fingerprint_of_readback host2 d _ _ _ _ _ Hd2 Hrun2)
    as (px2 & Hrb2 & ->).
  congruence.
Qed.

(** C8: against the same host in the same state the two sources make the
    same host calls, leave the same state and return the same string (or
    raise the same error); the shader texts are the same.  They differ in
    what follows a returned fingerprint: [fingerprint.ts] logs it to the
    console, [fp.js] looks up the page element [fingerprint] and writes
    its text content. *)
Theorem sources_agree {state : Type} (host : Host state) (st : state) :
  JS.createDeviceFingerprint host st = TS.createDeviceFingerprint host st
  /\ JS.vertexShaderSource = TS.vertexShaderSource
  /\ JS.fragmentShaderSource = TS.fragmentShaderSource
  /\ (forall st' tr s,
       TS.createDeviceFingerprint host st = (st', tr, Returned s) ->
       trace_of (TS.main host st)
       = tr ++ [Ev (ConsoleLog ["Device fingerprint:"; s]) tt]
       /\ exists sink,
           trace_of (JS.main host st) = tr ++ sink
           /\ (sink = [Ev (GetElementById "fingerprint") None]
               \/ exists el,
                    sink = [Ev (GetElementById "fingerprint") (Some el);
                            Ev (SetTextContent el s) tt]))
  /\ (forall st' tr e,
       TS.createDeviceFingerprint host st = (st', tr, Thrown e) ->
       TS.main host st = (st', tr, Thrown e)
       /\ JS.main host st = (st', tr, Thrown e)).
Proof.
  split; [reflexivity|]. split; [reflexivity|]. split; [reflexivity|].
  split.
  - intros st' tr s Hrun.
    unfold TS.main, JS.main, bind, trace_of.
    change (JS.createDeviceFingerprint host st)
      with (TS.createDeviceFingerprint host st).
    rewrite Hrun. unfold call. split.
    + destruct (host _ (ConsoleLog _) st') as [[] ?]. reflexivity.
    + destruct (host _ (GetElementById _) st') as [[el|] st1].
      * destruct (host _ (SetTextContent el s) st1) as [[] ?].
        eexists. split; [reflexivity|]. right. eauto.
      * eexists. split; [cbn; reflexivity|]. left. reflexivity.
  - intros st' tr e Hrun.
    unfold TS.main, JS.main, bind.
    change (JS.createDeviceFingerprint host st)
      with (TS.createDeviceFingerprint host st).
    rewrite Hrun. auto.
Qed.

(** ** The theorems at scripted hosts *)

Lemma outcome_eta {state A} (out : state * list Event * Completion A)
    (r : Completion A) :
  result_of out = r -> out = (state_of out, trace_of out, r).
Proof. destruct out as [[st tr] r']. cbn. now intros ->. Qed.

Lemma fingerprint_is_hex_of_sha256_witness :
  let host := Mock.host Mock.all_ok in
  let out := createDeviceFingerprint fingerprint_ts host Mock.init in
  let s :=
    "df3f619804a92fdb4057192dc43dd748ea778adc52bc498ce80524c014b81119" in
  sha256_host host
  /\ out = (state_of out, trace_of out, Returned s)
  /\ exists pixels,
       readback (trace_of out) = Some pixels
       /\ List.length (SHA256.sha256 pixels) = 32%nat
       /\ s = hex_of_bytes (SHA256.sha256 pixels)
       /\ list_ascii_of_string s = flat_map hex_pair (SHA256.sha256 pixels)
       /\ matches_hex64 s = true.
Proof.
  cbv zeta.
  assert (Hsha : sha256_host (Mock.host Mock.all_ok))
    by (intros data st; reflexivity).
  assert (Hrun : createDeviceFingerprint fingerprint_ts
                   (Mock.host Mock.all_ok) Mock.init
                 = (state_of _, trace_of _, Returned _))
    by (apply outcome_eta; vm_compute; reflexivity).
  split; [exact Hsha|]. split; [exact Hrun|].
  exact (fingerprint_is_hex_of_sha256 (Mock.host Mock.all_ok)
           fingerprint_ts Mock.init _ _ _ Hsha Hrun).
Defined.

Lemma all_ok_succeeds : gl_succeeds (Mock.host Mock.all_ok).
Proof.
  split; intros; try reflexivity; simpl; discriminate.
Defined.

Lemma fingerprint_of_blank_pixel_witness :
  let host := Mock.host Mock.all_ok in
  gl_succeeds host
  /\ surface_host 1 1 host
  /\ zero_readback_host host
  /\ sha256_host host
  /\ result_of (createDeviceFingerprint fingerprint_ts host Mock.init)
     = Returned
         "df3f619804a92fdb4057192dc43dd748ea778adc52bc498ce80524c014b81119".
Proof.
  cbv zeta.
  assert (Hs : surface_host 1 1 (Mock.host Mock.all_ok))
    by (intros tagName st; simpl; split; reflexivity).
  assert (Hz : zero_readback_host (Mock.host Mock.all_ok))
    by (intros gl x y w h f t px st; simpl; repeat constructor).
  assert (Hsha : sha256_host (Mock.host Mock.all_ok))
    by (intros data st; reflexivity).
  split; [exact all_ok_succeeds|].
  split; [exact Hs|]. split; [exact Hz|]. split; [exact Hsha|].
  exact (fingerprint_of_blank_pixel (Mock.host Mock.all_ok) fingerprint_ts
           Mock.init all_ok_succeeds Hs Hz Hsha).
Defined.

Lemma same_readback_same_fingerprint_witness :
  let host := Mock.host Mock.all_ok in
  let out1 := createDeviceFingerprint fingerprint_ts host Mock.init in
  let out2 := createDeviceFingerprint fp_js host (state_of out1) in
  let s :=
    "df3f619804a92fdb4057192dc43dd748ea778adc52bc498ce80524c014b81119" in
  digest_host SHA256.sha256 host
  /\ out1 = (state_of out1, trace_of out1, Returned s)
  /\ out2 = (state_of out2, trace_of out2, Returned s)
  /\ readback (trace_of out1) = readback (trace_of out2)
  /\ s = s.
Proof.
  cbv zeta.
  assert (Hd : digest_host SHA256.sha256 (Mock.host Mock.all_ok))
    by (intros data st; reflexivity).
  assert (Hrun1 : createDeviceFingerprint fingerprint_ts
                    (Mock.host Mock.all_ok) Mock.init
                  = (state_of _, trace_of _, Returned _))
    by (apply outcome_eta; vm_compute; reflexivity).
  assert (Hrun2 : createDeviceFingerprint fp_js (Mock.host Mock.all_ok)
                    (state_of (createDeviceFingerprint fingerprint_ts
                                 (Mock.host Mock.all_ok) Mock.init))
                  = (state_of _, trace_of _, Returned _))
    by (apply outcome_eta; vm_compute; reflexivity).
  assert (Hrb : readback (trace_of (createDeviceFingerprint fingerprint_ts
                                      (Mock.host Mock.all_ok) Mock.init))
                = readback (trace_of (createDeviceFingerprint fp_js
                     (Mock.host Mock.all_ok)
                     (state_of (createDeviceFingerprint fingerprint_ts
                                  (Mock.host Mock.all_ok) Mock.init)))))
    by (vm_compute; reflexivity).
  split; [exact Hd|]. split; [exact Hrun1|]. split; [exact Hrun2|].
  split; [exact Hrb|].
  exact (same_readback_same_fingerprint (Mock.host Mock.all_ok)
           (Mock.host Mock.all_ok) SHA256.sha256 fingerprint_ts fp_js
           _ _ _ _ _ _ _ _ Hd Hd Hrun1 Hrun2 Hrb).
Defined.

Lemma no_webgl_is_unsupported_witness :
  let host := Mock.host Mock.no_webgl in
  let canvas := mkCanvas 1 1 1 ∅ in
  let st1 := Mock.fresh Mock.init in
  host _ (CreateElement "canvas") Mock.init = (canvas, st1)
  /\ host _ (GetContext canvas "webgl") st1 = (None, st1)
  /\ createDeviceFingerprint fp_js host Mock.init
     = (st1,
        [Ev (CreateElement "canvas") canvas;
         Ev (GetContext canvas "webgl") None],
        Thrown (Error "WebGL is not supported")).
Proof.
  cbv zeta.
  assert (Hc : Mock.host Mock.no_webgl _ (CreateElement "canvas") Mock.init
               = (mkCanvas 1 1 1 ∅, Mock.fresh Mock.init))
    by reflexivity.
  assert (Hg : Mock.host Mock.no_webgl _
                 (GetContext (mkCanvas 1 1 1 ∅) "webgl")
                 (Mock.fresh Mock.init)
               = (None, Mock.fresh Mock.init))
    by reflexivity.
  split; [exact Hc|]. split; [exact Hg|].
  exact (no_webgl_is_unsupported (Mock.host Mock.no_webgl) fp_js
           _ _ _ _ Hc Hg).
Defined.

Lemma pipeline_failure_is_fatal_witness :
  let out :=
    createDeviceFingerprint fingerprint_ts (Mock.host Mock.bad_fragment)
                            Mock.init in
  existsb stage_failed (trace_of out) || existsb link_failed (trace_of out)
  = true
  /\ result_of out = Thrown (Error "Shader program could not be initialized")
  /\ count_calls (@is_drawArrays) (trace_of out) = 0%nat
  /\ count_calls (@is_readPixels) (trace_of out) = 0%nat
  /\ count_calls (@is_digest) (trace_of out) = 0%nat
  /\ (1 <= count_calls (@is_consoleError) (trace_of out))%nat.
Proof.
  cbv zeta.
  assert (Hfail :
    existsb stage_failed
      (trace_of (createDeviceFingerprint fingerprint_ts
                   (Mock.host Mock.bad_fragment) Mock.init))
    || existsb link_failed
         (trace_of (createDeviceFingerprint fingerprint_ts
                      (Mock.host Mock.bad_fragment) Mock.init))
    = true) by (vm_compute; reflexivity).
  split; [exact Hfail|].
  exact (pipeline_failure_is_fatal (Mock.host Mock.bad_fragment)
           fingerprint_ts Mock.init Hfail).
Defined.

Lemma readback_covers_surface_witness :
  let host := Mock.host Mock.all_ok in
  let out := createDeviceFingerprint fingerprint_ts host Mock.init in
  let s :=
    "df3f619804a92fdb4057192dc43dd748ea778adc52bc498ce80524c014b81119" in
  out = (state_of out, trace_of out, Returned s)
  /\ exists canvas gl pre data digest,
       let size := (width canvas * height canvas * 4)%N in
       let buf := Uint8Array_new size in
       let pixels := typed_array_write buf data in
       trace_of out
       = Ev (CreateElement "canvas") canvas :: pre
         ++ [Ev (ReadPixels gl 0 0 (width canvas) (height canvas)
                            RGBA UNSIGNED_BYTE buf) data;
             Ev (Digest "SHA-256" pixels) digest]
       /\ List.length buf = N.to_nat size
       /\ List.length pixels = N.to_nat size
       /\ count_calls (@is_readPixels) (trace_of out) = 1%nat
       /\ count_calls (@is_digest) (trace_of out) = 1%nat
       /\ s = hex_of_bytes digest.
Proof.
  cbv zeta.
  assert (Hrun : createDeviceFingerprint fingerprint_ts
                   (Mock.host Mock.all_ok) Mock.init
                 = (state_of _, trace_of _, Returned _))
    by (apply outcome_eta; vm_compute; reflexivity).
  split; [exact Hrun|].
  exact (readback_covers_surface (Mock.host Mock.all_ok) fingerprint_ts
           Mock.init _ _ _ Hrun).
Defined.

Lemma css_size_leaves_drawing_buffer_witness :
  let host := Mock.host Mock.browser_default in
  let canvas := mkCanvas 1 300 150 ∅ in
  let out := createDeviceFingerprint fingerprint_ts host Mock.init in
  let s :=
    "2a2a2a2a2a2a2a2a2a2a2a2a2a2a2a2a2a2a2a2a2a2a2a2a2a2a2a2a2a2a2a2a" in
  host _ (CreateElement "canvas") Mock.init = (canvas, Mock.fresh Mock.init)
  /\ width canvas = 300%N
  /\ height canvas = 150%N
  /\ out = (state_of out, trace_of out, Returned s)
  /\ (style (styled canvas) !! "width" = Some "1px"
      /\ style (styled canvas) !! "height" = Some "1px")
  /\ (width (styled canvas) = 300%N /\ height (styled canvas) = 150%N)
  /\ exists gl pre data digest,
       let buf := Uint8Array_new 180000 in
       trace_of out
       = pre
         ++ [Ev (ReadPixels gl 0 0 300 150 RGBA UNSIGNED_BYTE buf) data;
             Ev (Digest "SHA-256" (typed_array_write buf data)) digest]
       /\ N.of_nat (List.length buf) = 180000%N
       /\ N.of_nat (List.length (typed_array_write buf data)) = 180000%N.
Proof.
  cbv zeta.
  assert (Hc : Mock.host Mock.browser_default _ (CreateElement "canvas")
                 Mock.init
               = (mkCanvas 1 300 150 ∅, Mock.fresh Mock.init))
    by reflexivity.
  assert (Hrun : createDeviceFingerprint fingerprint_ts
                   (Mock.host Mock.browser_default) Mock.init
                 = (state_of _, trace_of _, Returned _))
    by (apply outcome_eta; vm_compute; reflexivity).
  split; [exact Hc|]. split; [reflexivity|]. split; [reflexivity|].
  split; [exact Hrun|].
  exact (css_size_leaves_drawing_buffer (Mock.host Mock.browser_default)
           fingerprint_ts Mock.init _ _ (mkCanvas 1 300 150 ∅) _ _
           Hc eq_refl eq_refl Hrun).
Defined.

Lemma shader_steps_report_failure_witness :
  let host := Mock.host Mock.bad_fragment in
  let gl := 2%N in
  let out :=
    TS.createShader host gl FRAGMENT_SHADER TS.fragmentShaderSource
                    Mock.init in
  let outp :=
    TS.createShaderProgram host gl TS.vertexShaderSource
                           TS.fragmentShaderSource Mock.init in
  (out = (state_of out, trace_of out, Returned None)
   /\ createShader_outcome gl FRAGMENT_SHADER TS.fragmentShaderSource
                           (trace_of out) (Returned None))
  /\ (outp = (state_of outp, trace_of outp, Returned None)
      /\ createShaderProgram_outcome host gl TS.vertexShaderSource
           TS.fragmentShaderSource Mock.init (trace_of outp)
           (Returned None)).
Proof.
  cbv zeta.
  destruct (shader_steps_report_failure (Mock.host Mock.bad_fragment) 2%N)
    as [Hshader Hprogram].
  assert (Hrun : TS.createShader (Mock.host Mock.bad_fragment) 2%N
                   FRAGMENT_SHADER TS.fragmentShaderSource Mock.init
                 = (state_of _, trace_of _, Returned None))
    by (apply outcome_eta; vm_compute; reflexivity).
  assert (Hrunp : TS.createShaderProgram (Mock.host Mock.bad_fragment) 2%N
                    TS.vertexShaderSource TS.fragmentShaderSource Mock.init
                  = (state_of _, trace_of _, Returned None))
    by (apply outcome_eta; vm_compute; reflexivity).
  split; split.
  - exact Hrun.
  - exact (Hshader _ _ _ _ _ _ Hrun).
  - exact Hrunp.
  - exact (Hprogram _ _ _ _ _ _ Hrunp).
Defined.

Lemma sources_agree_witness :
  let host := Mock.host Mock.all_ok in
  let out := TS.createDeviceFingerprint host Mock.init in
  let s :=
    "df3f619804a92fdb4057192dc43dd748ea778adc52bc498ce80524c014b81119" in
  out = (state_of out, trace_of out, Returned s)
  /\ JS.createDeviceFingerprint host Mock.init = out
  /\ trace_of (TS.main host Mock.init)
     = trace_of out ++ [Ev (ConsoleLog ["Device fingerprint:"; s]) tt]
  /\ exists sink,
       trace_of (JS.main host Mock.init) = trace_of out ++ sink
       /\ (sink = [Ev (GetElementById "fingerprint") None]
           \/ exists el,
                sink = [Ev (GetElementById "fingerprint") (Some el);
                        Ev (SetTextContent el s) tt]).
Proof.
  cbv zeta.
  destruct (sources_agree (Mock.host Mock.all_ok) Mock.init)
    as (Hsame & _ & _ & Hsink & _).
  assert (Hrun : TS.createDeviceFingerprint (Mock.host Mock.all_ok) Mock.init
                 = (state_of _, trace_of _, Returned _))
    by (apply outcome_eta; vm_compute; reflexivity).
  split; [exact Hrun|]. split; [exact Hsame|].
  exact (Hsink _ _ _ Hrun).
Defined.

Lemma null_reaches_host_iff_unchecked_witness :
  let out :=
    createDeviceFingerprint fingerprint_ts
      (Mock.host Mock.null_buffer_and_uniform) Mock.init in
  existsb unchecked_null (trace_of out) = true
  /\ existsb (on_call (@passes_null)) (trace_of out) = true
  /\ result_of out
     = Returned
         "df3f619804a92fdb4057192dc43dd748ea778adc52bc498ce80524c014b81119".
Proof.
  cbv zeta.
  destruct (null_reaches_host_iff_unchecked
              (Mock.host Mock.null_buffer_and_uniform) fingerprint_ts
              Mock.init) as [Hiff _].
  cbv zeta in Hiff.
  assert (Hnull :
    existsb unchecked_null
      (trace_of (createDeviceFingerprint fingerprint_ts
                   (Mock.host Mock.null_buffer_and_uniform) Mock.init))
    = true) by (vm_compute; reflexivity).
  split; [exact Hnull|]. split.
  - exact (eq_trans Hiff Hnull).
  - vm_compute. reflexivity.
Defined.

(** * Further properties of the procedure *)

(** ** The hex string can be read back *)

Lemma unhex_pair (b : byte) (rest : list ascii) :
  unhex_chars (hex_pair b ++ rest)
  = match unhex_chars rest with
    | Some bs => Some (b :: bs)
    | None => None
    end.
Proof.
  destruct b; cbn [hex_pair app]; vm_compute hex_pair;
    cbn [app unhex_chars]; vm_compute hex_value; cbv beta iota;
    destruct (unhex_chars rest); reflexivity.
Qed.

Lemma unhex_hex_of_bytes (bs : list byte) :
  unhex (hex_of_bytes bs) = Some bs.
Proof.
  unfold unhex. rewrite hex_of_bytes_chars.
  induction bs as [|b bs IH]; [reflexivity|].
  change (flat_map hex_pair (b :: bs))
    with (hex_pair b ++ flat_map hex_pair bs).
  now rewrite unhex_pair, IH.
Qed.

(** X6: reading the formatted string back, two characters per byte,
    recovers the bytes that were formatted. *)
Theorem unhex_of_source_hex (hashBuffer : list byte) :
  unhex
    (JsString.join ""
       (map (fun b => JsString.padStart (JsString.toString 16 b) 2 "0")
            (map Byte.to_N hashBuffer)))
  = Some hashBuffer.
Proof.
  rewrite source_hex_is_hex_of_bytes. apply unhex_hex_of_bytes.
Qed.

Section MoreRuns.
Context {state : Type} (host : Host state).

Lemma no_digest_event (e : Event) :
  on_call (@is_digest) e = false -> digest_of_event e = None.
Proof. destruct e as [X c r]; destruct c; simpl; congruence. Qed.

Lemma digest_answer_skip (pre rest : list Event) :
  existsb (on_call (@is_digest)) pre = false ->
  digest_answer (pre ++ rest) = digest_answer rest.
Proof.
  induction pre as [|e pre IH]; simpl; [reflexivity|].
  intros H. apply orb_false_iff in H as [He Hpre].
  now rewrite (no_digest_event e He), IH.
Qed.

(** The string of a successful run is the hex of what the digest call
    answered. *)
Lemma fingerprint_of_digest_answer
    (src : Source) (st st' : state) (tr : list Event) (s : string) :
  createDeviceFingerprint src host st = (st', tr, Returned s) ->
  exists digest, digest_answer tr = Some digest /\ s = hex_of_bytes digest.
Proof.
  intros Hrun. rewrite both_sources in Hrun.
  destruct (run_returned _ _ _ _ _ Hrun)
    as (canvas & gl & pre & data & digest & std & Htr & _ & _ & Hdg & _ & _
        & _ & Hs).
  cbn zeta in Htr. exists digest. split; [|exact Hs].
  rewrite Htr. cbn [digest_answer digest_of_event].
  rewrite digest_answer_skip by exact Hdg. reflexivity.
Qed.

(** X1: a run that returns made exactly these host calls, in this order,
    with these arguments: canvas and context; source, compile and status
    of the vertex and then the fragment shader; program, two attachments,
    link, status, use; buffer, bind, the six vertex coordinates with
    STATIC_DRAW; the attribute [aVertexPosition] enabled and laid out as 2
    floats, not normalised, stride 0, offset 0; the uniform [uColor] set
    to (1,1,0,1); clear colour (0,0,0,1), clear, one draw of 3 vertices from
    0 as TRIANGLES; the readback; the digest.  No diagnostic is logged. *)
Theorem returned_run_trace
    (src : Source) (st st' : state) (tr : list Event) (s : string) :
  createDeviceFingerprint src host st = (st', tr, Returned s) ->
  exists canvas gl vs fs program buffer location uniform data digest,
    tr = protocol_trace canvas gl vs fs program buffer location uniform
                        data digest
    /\ s = hex_of_bytes digest.
Proof.
  rewrite both_sources.
  revert st' tr s. exec host; intros ? ? ? H; try discriminate H.
  rewrite source_hex_is_hex_of_bytes in H.
  injection H as <- <- <-.
  repeat match goal with u : unit |- _ => destruct u end.
  do 10 eexists. unfold protocol_trace. cbn zeta. split; reflexivity.
Qed.

(** X2: in every run, whatever its outcome, the shaders handed to
    [deleteShader] are exactly the shaders whose compile status was read
    as false, in the same order: a shader that compiled is never deleted,
    also when the other stage or the link fails. *)
Theorem only_uncompiled_shaders_deleted (src : Source) (st : state) :
  let out := createDeviceFingerprint src host st in
  deleted_shaders (trace_of out) = uncompiled_shaders (trace_of out).
Proof.
  rewrite both_sources. cbn zeta.
  exec_run host; reflexivity.
Qed.

(** X3: in every run the number of [console.error] calls is the number of
    failed shader stages plus the number of failed links: one diagnostic
    per failure, none on success and none when WebGL is missing. *)
Theorem one_diagnostic_per_failure (src : Source) (st : state) :
  let out := createDeviceFingerprint src host st in
  count_calls (@is_consoleError) (trace_of out)
  = (count_events stage_failed (trace_of out)
     + count_events link_failed (trace_of out))%nat.
Proof.
  rewrite both_sources. cbn zeta.
  exec_run host; reflexivity.
Qed.


(** X5: when [createProgram] answers [null] and the host nevertheless
    reports a true link status, the run ends in "Shader program could not
    be initialized" without a single [console.error]: this failure leaves
    no diagnostic. *)
Theorem null_program_fails_silently (src : Source) (st : state) :
  let out := createDeviceFingerprint src host st in
  existsb program_null (trace_of out) = true ->
  existsb link_failed (trace_of out) = false ->
  result_of out = Thrown (Error "Shader program could not be initialized")
  /\ count_calls (@is_consoleError) (trace_of out) = 0%nat
  /\ count_calls (@is_drawArrays) (trace_of out) = 0%nat
  /\ count_calls (@is_digest) (trace_of out) = 0%nat.
Proof.
  rewrite both_sources. cbn zeta.
  exec_run host; intros Hnull Hlink;
    try discriminate Hnull; try discriminate Hlink.
  all: repeat split; reflexivity.
Qed.

(** X7: whatever the host's digest answers, the string of a successful
    run has two characters per answered byte, all of them in [0-9a-f]; it
    has the 64-character shape exactly when the host answered 32 bytes. *)
Theorem fingerprint_shape_follows_digest
    (src : Source) (st st' : state) (tr : list Event) (s : string) :
  createDeviceFingerprint src host st = (st', tr, Returned s) ->
  exists digest,
    digest_answer tr = Some digest
    /\ String.length s = (2 * List.length digest)%nat
    /\ forallb is_lower_hex (list_ascii_of_string s) = true
    /\ (matches_hex64 s = true <-> List.length digest = 32%nat).
Proof.
  intros Hrun.
  destruct (fingerprint_of_digest_answer _ _ _ _ _ Hrun)
    as (digest & Hd & ->).
  exists digest. split; [exact Hd|].
  split; [apply hex_of_bytes_length|].
  split; [apply hex_of_bytes_lower|].
  unfold matches_hex64.
  rewrite hex_of_bytes_length, hex_of_bytes_lower, andb_true_r.
  rewrite Nat.eqb_eq. lia.
Qed.

(** X8: on a canvas of width 0 or height 0 the pixel buffer is empty and
    stays empty whatever the readback offers, so with a SHA-256 host the
    fingerprint is the digest of the empty input, the same on every
    device. *)
Theorem empty_surface_fingerprint
    (src : Source) (st st1 st' : state) (canvas : HTMLCanvasElement)
    (tr : list Event) (s : string) :
  sha256_host host ->
  host _ (CreateElement "canvas") st = (canvas, st1) ->
  width canvas = 0%N \/ height canvas = 0%N ->
  createDeviceFingerprint src host st = (st', tr, Returned s) ->
  readback tr = Some []
  /\ s = "e3b0c44298fc1c149afbf4c8996fb92427ae41e4649b934ca495991b7852b855".
Proof.
  intros Hsha Hc Hzero Hrun.
  destruct (fingerprint_of_readback _ _ _ _ _ _ _ Hsha Hrun)
    as (pixels & Hrb & ->).
  rewrite both_sources in Hrun.
  destruct (run_returned _ _ _ _ _ Hrun)
    as (c & gl & pre & data & digest & std & Htr & Hfst & Hrp & _).
  rewrite Hc in Hfst. cbn [fst] in Hfst. subst c. cbn zeta in Htr.
  assert (Hsize : (width canvas * height canvas * 4 = 0)%N)
    by (destruct Hzero as [-> | ->]; lia).
  rewrite Hsize in Htr.
  rewrite Htr in Hrb. cbn [readback readback_of_event] in Hrb.
  rewrite readback_skip in Hrb by exact Hrp.
  cbn [readback readback_of_event] in Hrb.
  assert (Hempty : typed_array_write (Uint8Array_new 0) data = [])
    by (unfold typed_array_write; cbn; now rewrite skipn_nil).
  rewrite Hempty in Hrb. injection Hrb as <-.
  split.
  - rewrite Htr. cbn [readback readback_of_event].
    rewrite readback_skip by exact Hrp.
    cbn [readback readback_of_event]. now rewrite Hempty.
  - vm_compute. reflexivity.
Qed.

(** X9: whenever a context is given, shader objects are requested for the
    vertex stage and then for the fragment stage, also when the vertex
    stage has already failed; and once a stage has failed no program is
    created and nothing is linked. *)
Theorem both_stages_always_attempted (src : Source) (st : state) :
  let out := createDeviceFingerprint src host st in
  requested_stages (trace_of out)
  = (if existsb context_given (trace_of out)
     then [VERTEX_SHADER; FRAGMENT_SHADER] else [])
  /\ (existsb stage_failed (trace_of out) = true ->
      count_calls (@is_createProgram) (trace_of out) = 0%nat
      /\ count_calls (@is_linkProgram) (trace_of out) = 0%nat).
Proof.
  rewrite both_sources. cbn zeta.
  exec_run host; (split; [reflexivity|]); intros H; try discriminate H.
  all: split; reflexivity.
Qed.

End MoreRuns.

(** X10: two successful runs, on any hosts, return the same string only if
    their digest calls answered the same bytes: the formatting loses
    nothing of the digest. *)
Theorem same_fingerprint_same_digest
    {state1 state2 : Type} (host1 : Host state1) (host2 : Host state2)
    (src1 src2 : Source) (st1 st1' : state1) (st2 st2' : state2)
    (tr1 tr2 : list Event) (s : string) :
  createDeviceFingerprint src1 host1 st1 = (st1', tr1, Returned s) ->
  createDeviceFingerprint src2 host2 st2 = (st2', tr2, Returned s) ->
  digest_answer tr1 = digest_answer tr2.
Proof.
  intros Hrun1 Hrun2.
  destruct (fingerprint_of_digest_answer host1 _ _ _ _ _ Hrun1)
    as (d1 & Hd1 & Hs1).
  destruct (fingerprint_of_digest_answer host2 _ _ _ _ _ Hrun2)
    as (d2 & Hd2 & Hs2).
  rewrite Hd1, Hd2. f_equal.
  assert (Hu : unhex (hex_of_bytes d1) = unhex (hex_of_bytes d2))
    by congruence.
  rewrite !unhex_hex_of_bytes in Hu. congruence.
Qed.

(** ** The further properties at scripted hosts *)

Lemma returned_run_trace_witness :
  let host := Mock.host Mock.all_ok in
  let out := createDeviceFingerprint fp_js host Mock.init in
  let s :=
    "df3f619804a92fdb4057192dc43dd748ea778adc52bc498ce80524c014b81119" in
  out = (state_of out, trace_of out, Returned s)
  /\ exists canvas gl vs fs program buffer location uniform data digest,
       trace_of out
       = protocol_trace canvas gl vs fs program buffer location uniform
                        data digest
       /\ s = hex_of_bytes digest.
Proof.
  cbv zeta.
  assert (Hrun : createDeviceFingerprint fp_js (Mock.host Mock.all_ok)
                   Mock.init
                 = (state_of _, trace_of _, Returned _))
    by (apply outcome_eta; vm_compute; reflexivity).
  split; [exact Hrun|].
  exact (returned_run_trace (Mock.host Mock.all_ok) fp_js Mock.init
           _ _ _ Hrun).
Defined.

Lemma null_program_fails_silently_witness :
  let out :=
    createDeviceFingerprint fingerprint_ts (Mock.host null_program_linked)
                            Mock.init in
  existsb program_null (trace_of out) = true
  /\ existsb link_failed (trace_of out) = false
  /\ result_of out = Thrown (Error "Shader program could not be initialized")
  /\ count_calls (@is_consoleError) (trace_of out) = 0%nat
  /\ count_calls (@is_drawArrays) (trace_of out) = 0%nat
  /\ count_calls (@is_digest) (trace_of out) = 0%nat.
Proof.
  cbv zeta.
  assert (Hnull :
    existsb program_null
      (trace_of (createDeviceFingerprint fingerprint_ts
                   (Mock.host null_program_linked) Mock.init)) = true)
    by (vm_compute; reflexivity).
  assert (Hlink :
    existsb link_failed
      (trace_of (createDeviceFingerprint fingerprint_ts
                   (Mock.host null_program_linked) Mock.init)) = false)
    by (vm_compute; reflexivity).
  split; [exact Hnull|]. split; [exact Hlink|].
  exact (null_program_fails_silently (Mock.host null_program_linked)
           fingerprint_ts Mock.init Hnull Hlink).
Defined.

Lemma fingerprint_shape_follows_digest_witness :
  let out :=
    createDeviceFingerprint fingerprint_ts (Mock.host short_digest)
                            Mock.init in
  let s := "0f0f0f0f0f0f0f0f0f0f0f0f0f0f0f0f0f0f0f0f" in
  out = (state_of out, trace_of out, Returned s)
  /\ exists digest,
       digest_answer (trace_of out) = Some digest
       /\ String.length s = (2 * List.length digest)%nat
       /\ forallb is_lower_hex (list_ascii_of_string s) = true
       /\ (matches_hex64 s = true <-> List.length digest = 32%nat).
Proof.
  cbv zeta.
  assert (Hrun : createDeviceFingerprint fingerprint_ts
                   (Mock.host short_digest) Mock.init
                 = (state_of _, trace_of _, Returned _))
    by (apply outcome_eta; vm_compute; reflexivity).
  split; [exact Hrun|].
  exact (fingerprint_shape_follows_digest (Mock.host short_digest)
           fingerprint_ts Mock.init _ _ _ Hrun).
Defined.

Lemma empty_surface_fingerprint_witness :
  let host := Mock.host zero_width in
  let canvas := mkCanvas 1 0 150 ∅ in
  let out := createDeviceFingerprint fingerprint_ts host Mock.init in
  let s :=
    "e3b0c44298fc1c149afbf4c8996fb92427ae41e4649b934ca495991b7852b855" in
  sha256_host host
  /\ host _ (CreateElement "canvas") Mock.init = (canvas, Mock.fresh Mock.init)
  /\ (width canvas = 0%N \/ height canvas = 0%N)
  /\ out = (state_of out, trace_of out, Returned s)
  /\ readback (trace_of out) = Some []
  /\ s = s.
Proof.
  cbv zeta.
  assert (Hsha : sha256_host (Mock.host zero_width))
    by (intros data st; reflexivity).
  assert (Hc : Mock.host zero_width _ (CreateElement "canvas") Mock.init
               = (mkCanvas 1 0 150 ∅, Mock.fresh Mock.init))
    by reflexivity.
  assert (Hz : width (mkCanvas 1 0 150 ∅) = 0%N
               \/ height (mkCanvas 1 0 150 ∅) = 0%N)
    by (left; reflexivity).
  assert (Hrun : createDeviceFingerprint fingerprint_ts
                   (Mock.host zero_width) Mock.init
                 = (state_of _, trace_of _, Returned _))
    by (apply outcome_eta; vm_compute; reflexivity).
  split; [exact Hsha|]. split; [exact Hc|]. split; [exact Hz|].
  split; [exact Hrun|].
  exact (empty_surface_fingerprint (Mock.host zero_width) fingerprint_ts
           Mock.init _ _ _ _ _ Hsha Hc Hz Hrun).
Defined.

Lemma both_stages_always_attempted_witness :
  let out :=
    createDeviceFingerprint fingerprint_ts (Mock.host bad_both) Mock.init in
  existsb stage_failed (trace_of out) = true
  /\ requested_stages (trace_of out) = [VERTEX_SHADER; FRAGMENT_SHADER]
  /\ count_calls (@is_createProgram) (trace_of out) = 0%nat
  /\ count_calls (@is_linkProgram) (trace_of out) = 0%nat.
Proof.
  cbv zeta.
  destruct (both_stages_always_attempted (Mock.host bad_both)
              fingerprint_ts Mock.init) as [Hstages Hnone].
  cbv zeta in Hstages, Hnone.
  assert (Hfail :
    existsb stage_failed
      (trace_of (createDeviceFingerprint fingerprint_ts
                   (Mock.host bad_both) Mock.init)) = true)
    by (vm_compute; reflexivity).
  assert (Hctx :
    existsb context_given
      (trace_of (createDeviceFingerprint fingerprint_ts
                   (Mock.host bad_both) Mock.init)) = true)
    by (vm_compute; reflexivity).
  rewrite Hctx in Hstages.
  split; [exact Hfail|]. split; [exact Hstages|].
  exact (Hnone Hfail).
Defined.

Lemma same_fingerprint_same_digest_witness :
  let host := Mock.host Mock.all_ok in
  let out1 := createDeviceFingerprint fingerprint_ts host Mock.init in
  let out2 := createDeviceFingerprint fp_js host (state_of out1) in
  let s :=
    "df3f619804a92fdb4057192dc43dd748ea778adc52bc498ce80524c014b81119" in
  out1 = (state_of out1, trace_of out1, Returned s)
  /\ out2 = (state_of out2, trace_of out2, Returned s)
  /\ digest_answer (trace_of out1) = digest_answer (trace_of out2).
Proof.
  cbv zeta.
  assert (Hrun1 : createDeviceFingerprint fingerprint_ts
                    (Mock.host Mock.all_ok) Mock.init
                  = (state_of _, trace_of _, Returned _))
    by (apply outcome_eta; vm_compute; reflexivity).
  assert (Hrun2 : createDeviceFingerprint fp_js (Mock.host Mock.all_ok)
                    (state_of (createDeviceFingerprint fingerprint_ts
                                 (Mock.host Mock.all_ok) Mock.init))
                  = (state_of _, trace_of _, Returned _))
    by (apply outcome_eta; vm_compute; reflexivity).
  split; [exact Hrun1|]. split; [exact Hrun2|].
  exact (same_fingerprint_same_digest (Mock.host Mock.all_ok)
           (Mock.host Mock.all_ok) fingerprint_ts fp_js
           _ _ _ _ _ _ _ Hrun1 Hrun2).
Defined.
